(** * UnderTheRadar VPN data plane: shallow embedding and properties

    The development follows the two source files:
    - [vpn-core/src/ebpf/xdp_accelerator.c]: the XDP ingress filter (token
      bucket, DDoS heuristics) and the TC egress program (DSCP marking,
      pacing), in module [Xdp];
    - [vpn-core/src/wireguard_manager.c]: the kernel-side manager (message
      limits, kill switch, handshake retry timer, routing lookup), in module
      [Manager].

    Unsigned 64-bit and 16-bit quantities are integers of [Z] with the
    wrap-around written out (module [U64]); packets are lists of bytes. *)

From Stdlib Require Import ZArith Lia Bool String.
From stdpp Require Import base gmap list.

Local Open Scope Z_scope.

(** ** Unsigned 64-bit arithmetic ([__u64], [u64]) *)

Module U64.

Definition modulus : Z := 2 ^ 64.
Definition max : Z := modulus - 1.          (* U64_MAX *)

Definition wrap (x : Z) : Z := x mod modulus.

Definition add (a b : Z) : Z := wrap (a + b).
Definition sub (a b : Z) : Z := wrap (a - b).
Definition mul (a b : Z) : Z := wrap (a * b).
Definition div (a b : Z) : Z := a / b.
Definition shl (a n : Z) : Z := wrap (Z.shiftl a n).

(** The shift as a 64-bit shifter performs it, the count taken modulo 64. *)
Definition shl_masked (a n : Z) : Z := wrap (Z.shiftl a (n mod 64)).

Definition in_range (x : Z) : Prop := 0 <= x < modulus.

End U64.

(** ** The eBPF programs of [xdp_accelerator.c] *)

Module Xdp.

(** *** Token bucket ([struct rate_limit], [check_rate_limit]) *)

Record rate_limit := RateLimit { tokens : Z; last_update : Z }.

Definition rate : Z := 10000.   (* 10k packets per second *)
Definition burst : Z := 1000.   (* Burst of 1000 packets *)
Definition NSEC_PER_SEC : Z := 1000000000.

(** [tokens_to_add = (now - rl->last_update) * rate / 1000000000] *)
Definition tokens_to_add (rl : rate_limit) (now : Z) : Z :=
  U64.div (U64.mul (U64.sub now (last_update rl)) rate) NSEC_PER_SEC.

(** The refill of lines 208-211: add, then clamp to [burst]. *)
Definition refill (rl : rate_limit) (now : Z) : Z :=
  let t := U64.add (tokens rl) (tokens_to_add rl now) in
  if burst <? t then burst else t.

(** [rate_limit_map] is a [BPF_MAP_TYPE_HASH] keyed by the source address,
    with [max_entries] 100000. *)
Definition RATE_LIMIT_MAX_ENTRIES : Z := 100000.
Definition E2BIG : Z := 7.

(** Whether the map can take a key that it does not hold yet. *)
Definition has_room (m : gmap Z rate_limit) : bool :=
  Z.of_nat (size m) <? RATE_LIMIT_MAX_ENTRIES.

(** [bpf_map_update_elem] with [BPF_ANY] on the hash map: the value of a key
    that is present is replaced; a new key is stored when the map has room,
    and otherwise the call fails with [-E2BIG] and the map stays as it is. *)
Definition bpf_map_update_elem (m : gmap Z rate_limit) (key : Z)
    (value : rate_limit) : Z * gmap Z rate_limit :=
  match m !! key with
  | Some _ => (0, <[key := value]> m)
  | None => if has_room m then (0, <[key := value]> m) else (- E2BIG, m)
  end.

(** The entry found by [bpf_map_lookup_elem] is updated in place through the
    pointer, which is an insertion at the same key here. For a new source the
    status of [bpf_map_update_elem] is not looked at. *)
Definition check_rate_limit (m : gmap Z rate_limit) (src_ip now : Z)
  : bool * gmap Z rate_limit :=
  match m !! src_ip with
  | None =>
      (true,
       (bpf_map_update_elem m src_ip
          {| tokens := burst; last_update := now |}).2)
  | Some rl =>
      let t := refill rl now in
      if 0 <? t
      then (true, <[src_ip := {| tokens := U64.sub t 1; last_update := now |}]> m)
      else (false, <[src_ip := {| tokens := t; last_update := now |}]> m)
  end.

(** The count stored by a call on an existing entry whose refill gave [t]
    (lines 215-218). *)
Definition spend (t : Z) : Z := if 0 <? t then U64.sub t 1 else t.

(** A sequence of calls for one source, one clock reading per call. *)
Fixpoint run_calls (m : gmap Z rate_limit) (src_ip : Z) (ts : list Z)
  : list bool * gmap Z rate_limit :=
  match ts with
  | [] => ([], m)
  | t :: ts' =>
      let '(ok, m1) := check_rate_limit m src_ip t in
      let '(oks, m2) := run_calls m1 src_ip ts' in
      (ok :: oks, m2)
  end.

Fixpoint successes (oks : list bool) : Z :=
  match oks with
  | [] => 0
  | b :: oks' => (if b then 1 else 0) + successes oks'
  end.

(** Clock readings that never go back ([bpf_ktime_get_ns] is monotonic). *)
Fixpoint monotone (ts : list Z) : Prop :=
  match ts with
  | [] => True
  | t :: ts' =>
      match ts' with
      | [] => True
      | t' :: _ => t <= t' /\ monotone ts'
      end
  end.

Definition first_ts (ts : list Z) : Z := hd 0 ts.
Definition last_ts (ts : list Z) : Z := List.last ts 0.

(** *** Packet buffers

    A packet is the byte sequence between [data] and [data_end]; positions
    are offsets from [data], so [data_end] is the length of the buffer.
    Pointer comparisons are comparisons of offsets in [Z]. *)

Inductive endianness := LittleEndian | BigEndian.

Definition byte_of_Z (z : Z) : Byte.byte :=
  match Byte.of_N (Z.to_N (z mod 256)) with
  | Some b => b
  | None => Byte.x00
  end.

Definition bytes_of (l : list Z) : list Byte.byte := map byte_of_Z l.

Definition byte_at (pkt : list Byte.byte) (off : Z) : Z :=
  if off <? 0 then 0
  else match pkt !! Z.to_nat off with
       | Some b => Z.of_N (Byte.to_N b)
       | None => 0
       end.

Definition data_end (pkt : list Byte.byte) : Z := Z.of_nat (length pkt).

(** A 16-bit field as the CPU loads it. *)
Definition load16 (host : endianness) (pkt : list Byte.byte) (off : Z) : Z :=
  match host with
  | LittleEndian => byte_at pkt off + 256 * byte_at pkt (off + 1)
  | BigEndian => 256 * byte_at pkt off + byte_at pkt (off + 1)
  end.

Definition load32 (host : endianness) (pkt : list Byte.byte) (off : Z) : Z :=
  match host with
  | LittleEndian => load16 host pkt off + 65536 * load16 host pkt (off + 2)
  | BigEndian => 65536 * load16 host pkt off + load16 host pkt (off + 2)
  end.

Definition bswap16 (x : Z) : Z := (x mod 256) * 256 + (x / 256) mod 256.

Definition bpf_htons (host : endianness) (x : Z) : Z :=
  match host with
  | LittleEndian => bswap16 x
  | BigEndian => x mod 65536
  end.

Definition bpf_ntohs := bpf_htons.

(** Header layouts ([struct ethhdr], [struct iphdr], [struct udphdr],
    [struct tcphdr], [struct wireguard_header]). *)
Definition ETH_HLEN : Z := 14.
Definition IPHDR_LEN : Z := 20.
Definition UDPHDR_LEN : Z := 8.
Definition TCPHDR_LEN : Z := 20.
Definition WGHDR_LEN : Z := 16.

Definition ETH_P_IP : Z := 2048.        (* 0x0800 *)
Definition IPPROTO_TCP : Z := 6.
Definition IPPROTO_UDP : Z := 17.
Definition IP_MF : Z := 8192.           (* 0x2000 *)
Definition IP_OFFSET : Z := 8191.       (* 0x1FFF *)
Definition WIREGUARD_PORT : Z := 51820.
Definition WIREGUARD_MESSAGE_DATA : Z := 4.

Definition eth_h_proto host pkt : Z := load16 host pkt 12.
Definition ip_ihl (pkt : list Byte.byte) (ip : Z) : Z := byte_at pkt ip mod 16.
Definition ip_tos (pkt : list Byte.byte) (ip : Z) : Z := byte_at pkt (ip + 1).
Definition ip_tot_len host pkt (ip : Z) : Z := load16 host pkt (ip + 2).
Definition ip_frag_off host pkt (ip : Z) : Z := load16 host pkt (ip + 6).
Definition ip_ttl (pkt : list Byte.byte) (ip : Z) : Z := byte_at pkt (ip + 8).
Definition ip_protocol (pkt : list Byte.byte) (ip : Z) : Z := byte_at pkt (ip + 9).
Definition ip_saddr host pkt (ip : Z) : Z := load32 host pkt (ip + 12).
Definition ip_daddr host pkt (ip : Z) : Z := load32 host pkt (ip + 16).
Definition udp_source host pkt (udp : Z) : Z := load16 host pkt udp.
Definition udp_dest host pkt (udp : Z) : Z := load16 host pkt (udp + 2).
Definition tcp_syn (pkt : list Byte.byte) (tcp : Z) : bool :=
  Z.testbit (byte_at pkt (tcp + 13)) 1.
Definition tcp_ack (pkt : list Byte.byte) (tcp : Z) : bool :=
  Z.testbit (byte_at pkt (tcp + 13)) 4.
Definition wg_type (pkt : list Byte.byte) (wg : Z) : Z := byte_at pkt wg.

(** *** DDoS heuristics ([is_ddos_pattern]) *)

Definition is_ddos_pattern (host : endianness) (pkt : list Byte.byte) (ip : Z)
  : bool :=
  (* 1. IP fragment attacks *)
  if negb (Z.land (ip_frag_off host pkt ip)
                  (bpf_htons host (Z.lor IP_MF IP_OFFSET)) =? 0)
  then true
  (* 2. Small packet floods *)
  else if ip + bpf_ntohs host (ip_tot_len host pkt ip) <? data_end pkt - 64
  then true
  (* 3. Invalid TTL *)
  else if ip_ttl pkt ip <? 5
  then true
  (* 4. TCP SYN floods *)
  else if ip_protocol pkt ip =? IPPROTO_TCP
  then
    let tcp := ip + ip_ihl pkt ip * 4 in
    if tcp + TCPHDR_LEN <=? data_end pkt
    then tcp_syn pkt tcp && negb (tcp_ack pkt tcp)
    else false
  else false.

(** *** The XDP ingress program ([xdp_vpn_filter]) *)

Record vpn_stats := VpnStats {
  rx_packets : Z; rx_bytes : Z; tx_packets : Z; tx_bytes : Z;
  dropped_packets : Z; invalid_packets : Z }.

Record flow_state := FlowState {
  packets : Z; bytes : Z; last_seen : Z; state : Z }.

(** [struct flow_key]: src_ip, dst_ip, src_port, dst_port, protocol. *)
Definition flow_key : Type := Z * Z * Z * Z * Z.

Record xdp_maps := XdpMaps {
  stats_map : vpn_stats;
  rate_limit_map : gmap Z rate_limit;
  flow_table : gmap flow_key flow_state }.

(** What the kernel supplies to one run of the program. *)
Record xdp_env := XdpEnv {
  host : endianness;
  ktime_rate : Z;          (* bpf_ktime_get_ns() in check_rate_limit *)
  ktime_flow : Z;          (* bpf_ktime_get_ns() for last_seen *)
  smp_processor_id : Z;
  cpu_map : gset Z }.

Inductive xdp_action := XDP_ABORTED | XDP_DROP | XDP_PASS | XDP_REDIRECT.

Definition count_rx (len : Z) (s : vpn_stats) : vpn_stats :=
  VpnStats (U64.add (rx_packets s) 1) (U64.add (rx_bytes s) len)
           (tx_packets s) (tx_bytes s) (dropped_packets s) (invalid_packets s).

Definition count_dropped (s : vpn_stats) : vpn_stats :=
  VpnStats (rx_packets s) (rx_bytes s) (tx_packets s) (tx_bytes s)
           (U64.add (dropped_packets s) 1) (invalid_packets s).

Definition with_stats (f : vpn_stats -> vpn_stats) (m : xdp_maps) : xdp_maps :=
  XdpMaps (f (stats_map m)) (rate_limit_map m) (flow_table m).

(** [bpf_redirect_map(&cpu_map, cpu, 0)]: redirect when the CPU has an
    entry, otherwise the low bits of the flags, which is [XDP_ABORTED]. *)
Definition bpf_redirect_map (cpus : gset Z) (cpu : Z) : xdp_action :=
  if bool_decide (cpu ∈ cpus) then XDP_REDIRECT else XDP_ABORTED.

(** Where the program stands after lines 104-175: it has returned, or it
    goes on to the DDoS check with the IP header at the given offset. *)
Inductive stage := Returned (a : xdp_action) | ToDdosCheck (ip : Z).

Definition xdp_front (env : xdp_env) (m : xdp_maps) (pkt : list Byte.byte)
  : stage * xdp_maps :=
  let h := host env in
  if ETH_HLEN >? data_end pkt then (Returned XDP_DROP, m) else
  let m := with_stats (count_rx (data_end pkt)) m in
  if negb (eth_h_proto h pkt =? bpf_htons h ETH_P_IP)
  then (Returned XDP_PASS, m) else
  let ip := ETH_HLEN in
  if ip + IPHDR_LEN >? data_end pkt then (Returned XDP_DROP, m) else
  if ip_protocol pkt ip =? IPPROTO_UDP then
    let udp := ip + ip_ihl pkt ip * 4 in
    if udp + UDPHDR_LEN >? data_end pkt then (Returned XDP_DROP, m) else
    if udp_dest h pkt udp =? bpf_htons h WIREGUARD_PORT then
      let wg := udp + UDPHDR_LEN in
      if wg + WGHDR_LEN >? data_end pkt then (Returned XDP_DROP, m) else
      let '(ok, rl) :=
        check_rate_limit (rate_limit_map m) (ip_saddr h pkt ip) (ktime_rate env) in
      let m := XdpMaps (stats_map m) rl (flow_table m) in
      if negb ok then (Returned XDP_DROP, with_stats count_dropped m) else
      if wg_type pkt wg =? WIREGUARD_MESSAGE_DATA then
        let flow : flow_key :=
          (ip_saddr h pkt ip, ip_daddr h pkt ip,
           udp_source h pkt udp, udp_dest h pkt udp, IPPROTO_UDP) in
        match flow_table m !! flow with
        | Some fs =>
            let fs' := FlowState (U64.add (packets fs) 1)
                                 (U64.add (bytes fs) (data_end pkt))
                                 (ktime_flow env) (state fs) in
            (Returned (bpf_redirect_map (cpu_map env) (smp_processor_id env)),
             XdpMaps (stats_map m) (rate_limit_map m)
                     (<[flow := fs']> (flow_table m)))
        | None => (ToDdosCheck ip, m)
        end
      else (ToDdosCheck ip, m)
    else (ToDdosCheck ip, m)
  else (ToDdosCheck ip, m).

Definition xdp_vpn_filter (env : xdp_env) (m : xdp_maps) (pkt : list Byte.byte)
  : xdp_action * xdp_maps :=
  let '(s, m) := xdp_front env m pkt in
  match s with
  | Returned a => (a, m)
  | ToDdosCheck ip =>
      if is_ddos_pattern (host env) pkt ip
      then (XDP_DROP, with_stats count_dropped m)
      else (XDP_PASS, m)
  end.

(** *** The TC egress program ([tc_vpn_egress]) *)

Record sk_buff := SkBuff {
  skb_data : list Byte.byte;   (* the bytes between data and data_end *)
  skb_len : Z;                 (* skb->len *)
  skb_tstamp : Z }.            (* skb->tstamp *)

Definition TC_ACT_OK : Z := 0.

Definition DSCP_EF : Z := 184.     (* 0xb8 *)
Definition DSCP_AF41 : Z := 136.   (* 0x88 *)
Definition DSCP_AF31 : Z := 104.   (* 0x68 *)

(** [calculate_pacing_delay]: both constants are unsigned 64-bit and the
    division is the integer division of C. *)
Definition target_bps : Z := U64.mul (U64.mul (U64.mul 10 1000) 1000) 1000.
Definition ns_per_byte : Z := U64.div (U64.mul 1000000000 8) target_bps.

Definition calculate_pacing_delay (pkt_len : Z) : Z :=
  U64.mul pkt_len ns_per_byte.

(** The if-chain of lines 277-287 on the field [udp->dest] as loaded;
    [None] when no branch assigns [ip->tos]. *)
Definition dscp_for_dest (host : endianness) (dest : Z) : option Z :=
  if (dest =? bpf_htons host 5060) || (dest =? bpf_htons host 5061)
  then Some DSCP_EF
  else if (bpf_htons host 27000 <=? dest) && (dest <=? bpf_htons host 27100)
  then Some DSCP_AF41
  else if dest =? bpf_htons host WIREGUARD_PORT
  then Some DSCP_AF31
  else None.

(** The classes of the egress classification by destination port in host
    order, as the design document words them: voice ports, the game range,
    the tunnel port, and no marking otherwise. *)
Definition dscp_by_port (port : Z) : option Z :=
  if (port =? 5060) || (port =? 5061) then Some DSCP_EF
  else if (27000 <=? port) && (port <=? 27100) then Some DSCP_AF41
  else if port =? WIREGUARD_PORT then Some DSCP_AF31
  else None.

Definition set_ip_tos (pkt : list Byte.byte) (ip v : Z) : list Byte.byte :=
  <[Z.to_nat (ip + 1) := byte_of_Z v]> pkt.

Definition tc_vpn_egress (host : endianness) (now : Z) (skb : sk_buff)
  : Z * sk_buff :=
  let pkt := skb_data skb in
  if ETH_HLEN >? data_end pkt then (TC_ACT_OK, skb) else
  if negb (eth_h_proto host pkt =? bpf_htons host ETH_P_IP)
  then (TC_ACT_OK, skb) else
  let ip := ETH_HLEN in
  if ip + IPHDR_LEN >? data_end pkt then (TC_ACT_OK, skb) else
  (* Apply DSCP marking for QoS *)
  let pkt' :=
    if ip_protocol pkt ip =? IPPROTO_UDP then
      let udp := ip + ip_ihl pkt ip * 4 in
      if udp + UDPHDR_LEN <=? data_end pkt then
        match dscp_for_dest host (udp_dest host pkt udp) with
        | Some v => set_ip_tos pkt ip v
        | None => pkt
        end
      else pkt
    else pkt in
  (* Implement packet pacing *)
  let delay := calculate_pacing_delay (skb_len skb) in
  let tstamp := if 0 <? delay then U64.add now delay else skb_tstamp skb in
  (TC_ACT_OK, SkBuff pkt' (skb_len skb) tstamp).

(** The frames on which the marking branch runs: an IPv4 frame that carries
    UDP, with the three headers inside the buffer. *)
Definition egress_udp_frame (host : endianness) (pkt : list Byte.byte) : bool :=
  negb (ETH_HLEN >? data_end pkt)
  && (eth_h_proto host pkt =? bpf_htons host ETH_P_IP)
  && negb (ETH_HLEN + IPHDR_LEN >? data_end pkt)
  && (ip_protocol pkt ETH_HLEN =? IPPROTO_UDP)
  && (ETH_HLEN + ip_ihl pkt ETH_HLEN * 4 + UDPHDR_LEN <=? data_end pkt).


(** *** Sample frames *)

Definition eth_ipv4 : list Z := replicate 12 0 ++ [8; 0].

(** A 20-byte IPv4 header from 10.0.0.5 to 10.0.0.1. *)
Definition ipv4_hdr (tot_len frag ttl proto : Z) : list Z :=
  [69; 0; tot_len / 256; tot_len mod 256; 0; 0; frag / 256; frag mod 256;
   ttl; proto; 0; 0; 10; 0; 0; 5; 10; 0; 0; 1].

Definition udp_hdr (sport dport len : Z) : list Z :=
  [sport / 256; sport mod 256; dport / 256; dport mod 256;
   len / 256; len mod 256; 0; 0].

(** 10.0.0.5 as the little-endian load of its four bytes. *)
Definition ip_10_0_0_5 : Z := 83886090.

(** An ICMP datagram that declares 1500 bytes of which only the 20 header
    bytes were captured. *)
Definition frame_truncated : list Byte.byte :=
  bytes_of (eth_ipv4 ++ ipv4_hdr 1500 0 64 1).

(** An ICMP datagram that declares 20 bytes, followed by 100 more bytes. *)
Definition frame_trailing : list Byte.byte :=
  bytes_of (eth_ipv4 ++ ipv4_hdr 20 0 64 1 ++ replicate 100 0).

(** A UDP datagram to the given destination port, with an empty payload. *)
Definition frame_udp (dport : Z) : list Byte.byte :=
  bytes_of (eth_ipv4 ++ ipv4_hdr 28 0 64 17 ++ udp_hdr 40000 dport 8).

Definition empty_maps : xdp_maps :=
  XdpMaps (VpnStats 0 0 0 0 0 0) ∅ ∅.

Definition env_le : xdp_env := XdpEnv LittleEndian 0 0 0 ∅.

(** *** Further vocabulary for the two programs *)

(** Clock readings each less than 100 microseconds after the one before,
    the first of them after [prev]. *)
Fixpoint closely_spaced (prev : Z) (ts : list Z) : Prop :=
  match ts with
  | [] => True
  | t :: ts' => prev <= t < prev + 100000 /\ closely_spaced t ts'
  end.

(** Longest idle time, in nanoseconds, for which [(now - last_update) * rate]
    stays below [2^64]. *)
Definition MAX_IDLE_NS : Z := 1844674407370955.

(** A 16-bit field read in network order, whatever the host. *)
Definition net16 (pkt : list Byte.byte) (off : Z) : Z :=
  256 * byte_at pkt off + byte_at pkt (off + 1).

(** The frames that reach [check_rate_limit] (lines 125-142): IPv4, UDP to
    the tunnel port, with the four headers inside the buffer. *)
Definition is_wireguard_frame (host : endianness) (pkt : list Byte.byte) : bool :=
  negb (ETH_HLEN >? data_end pkt)
  && (eth_h_proto host pkt =? bpf_htons host ETH_P_IP)
  && negb (ETH_HLEN + IPHDR_LEN >? data_end pkt)
  && (ip_protocol pkt ETH_HLEN =? IPPROTO_UDP)
  && negb (ETH_HLEN + ip_ihl pkt ETH_HLEN * 4 + UDPHDR_LEN >? data_end pkt)
  && (udp_dest host pkt (ETH_HLEN + ip_ihl pkt ETH_HLEN * 4)
      =? bpf_htons host WIREGUARD_PORT)
  && negb (ETH_HLEN + ip_ihl pkt ETH_HLEN * 4 + UDPHDR_LEN + WGHDR_LEN
           >? data_end pkt).

(** The key of lines 154-160. *)
Definition packet_flow_key (host : endianness) (pkt : list Byte.byte) : flow_key :=
  let udp := ETH_HLEN + ip_ihl pkt ETH_HLEN * 4 in
  (ip_saddr host pkt ETH_HLEN, ip_daddr host pkt ETH_HLEN,
   udp_source host pkt udp, udp_dest host pkt udp, IPPROTO_UDP).

(** The program run on one frame after the other, on the same maps. *)
Fixpoint xdp_filter_all (m : xdp_maps) (inputs : list (xdp_env * list Byte.byte))
  : list xdp_action * xdp_maps :=
  match inputs with
  | [] => ([], m)
  | (env, pkt) :: rest =>
      let '(a, m1) := xdp_vpn_filter env m pkt in
      let '(acts, m2) := xdp_filter_all m1 rest in
      (a :: acts, m2)
  end.

(** The four rules of [is_ddos_pattern] read on the fields in network
    order: a fragment (MF set or a non-zero offset), more than 64 bytes after
    the declared end of the datagram, a TTL below 5, a TCP SYN without ACK
    whose header is inside the buffer. *)
Definition ddos_rules (pkt : list Byte.byte) (ip : Z) : bool :=
  negb (Z.land (net16 pkt (ip + 6)) (Z.lor IP_MF IP_OFFSET) =? 0)
  || (ip + net16 pkt (ip + 2) <? data_end pkt - 64)
  || (ip_ttl pkt ip <? 5)
  || ((ip_protocol pkt ip =? IPPROTO_TCP)
      && (ip + ip_ihl pkt ip * 4 + TCPHDR_LEN <=? data_end pkt)
      && tcp_syn pkt (ip + ip_ihl pkt ip * 4)
      && negb (tcp_ack pkt (ip + ip_ihl pkt ip * 4))).

(** A tunnel message of the given type from 10.0.0.5 with the given TTL: the
    16 bytes of [struct wireguard_header] after the UDP header. *)
Definition frame_wg (ttl type : Z) : list Byte.byte :=
  bytes_of (eth_ipv4 ++ ipv4_hdr 44 0 ttl 17 ++ udp_hdr 40000 51820 24
            ++ [type; 0; 0; 0] ++ replicate 12 0).

(** An Ethernet frame of type IPv6 (0x86DD) with a 40-byte header. *)
Definition frame_ipv6 : list Byte.byte :=
  bytes_of (replicate 12 0 ++ [134; 221] ++ [96] ++ replicate 39 0).

(** The first 30 bytes of an IPv4 frame. *)
Definition frame_cut : list Byte.byte :=
  bytes_of (eth_ipv4 ++ take 16 (ipv4_hdr 1500 0 64 17)).

End Xdp.

(** ** The kernel module of [wireguard_manager.c] *)

Module Manager.

(** *** Message limits *)

(** [1ULL << 60] and [1ULL << 64] in unsigned 64-bit arithmetic. *)
Definition REKEY_AFTER_MESSAGES : Z := U64.shl 1 60.
Definition REJECT_AFTER_MESSAGES : Z := U64.shl 1 64.

(** *** Kill switch ([undertheradar_enable_kill_switch]) *)

Definition ENOMEM : Z := 12.

Record undertheradar_device := Device {
  dev_name : String.string;
  kill_switch_enabled : bool }.

Definition iptables_rule : Type := String.string.

(** The rules installed in the packet filter, in order. *)
Definition firewall : Type := list iptables_rule.

Section KillSwitch.

(** The packet-filter collaborator: [iptables_create_rule] returns the
    rule or NULL, and [iptables_add_rule] returns a status that is
    negative on failure; a rule is installed only on success. *)
Variable iptables_create_rule : String.string -> option iptables_rule.
Variable add_status : firewall -> option iptables_rule -> Z.

Definition iptables_add_rule (fw : firewall) (rule : option iptables_rule)
  : Z * firewall :=
  let ret := add_status fw rule in
  match rule with
  | Some r => if ret <? 0 then (ret, fw) else (ret, fw ++ [r])
  | None => (ret, fw)
  end.

Definition accept_rule (wg : undertheradar_device) : String.string :=
  String.append "-A OUTPUT -o "%string
    (String.append (dev_name wg) " -j ACCEPT"%string).

Definition drop_rule : String.string := "-A OUTPUT -j DROP"%string.

Definition undertheradar_enable_kill_switch
    (wg : undertheradar_device) (fw : firewall)
  : Z * undertheradar_device * firewall :=
  if kill_switch_enabled wg then (0, wg, fw) else
  match iptables_create_rule (accept_rule wg) with
  | None => (- ENOMEM, wg, fw)
  | Some rule =>
      let '(ret, fw1) := iptables_add_rule fw (Some rule) in
      if ret <? 0 then (ret, wg, fw1)
      else
        let rule2 := iptables_create_rule drop_rule in
        let '(ret2, fw2) := iptables_add_rule fw1 rule2 in
        (ret2, Device (dev_name wg) true, fw2)
  end.

End KillSwitch.

(** A packet filter that accepts the first rule and rejects every rule
    once one is installed. *)
Definition create_always (s : String.string) : option iptables_rule := Some s.
Definition add_fails_on_second (fw : firewall) (r : option iptables_rule) : Z :=
  match fw with
  | [] => 0
  | _ :: _ => - ENOMEM
  end.
Definition wg0 : undertheradar_device := Device "wg0"%string false.

(** *** Peers *)

(** The fields of [struct undertheradar_peer] that the timer handler and
    the routing lookup read or write; those that the structure does not
    declare ([handshake_failures], [handshake_retry_interval],
    [last_handshake_rtt]) are taken as unsigned 64-bit. [peer_id] is the
    identifier of the peer; no function below reads it. *)
Record undertheradar_peer := Peer {
  peer_id : Z;
  tx_bytes : Z;
  last_handshake_rtt : Z;
  handshake_failures : Z;
  handshake_retry_interval : Z }.

(** *** Handshake retry timer ([undertheradar_peer_check_handshake]) *)

(** What the handler asks of its collaborators, in call order. *)
Inductive timer_effect :=
| TryAlternativeEndpoint
| SendHandshakeInitiation
| ModTimer (expires : Z).

Section Handshake.

Variable MAX_HANDSHAKE_RETRY : Z.

Definition undertheradar_peer_check_handshake
    (jiffies : Z) (peer : undertheradar_peer)
  : undertheradar_peer * list timer_effect :=
  let failover :=
    if 3 <? handshake_failures peer then [TryAlternativeEndpoint] else [] in
  let interval :=
    Z.min (U64.mul (handshake_retry_interval peer) 2) MAX_HANDSHAKE_RETRY in
  (Peer (peer_id peer) (tx_bytes peer) (last_handshake_rtt peer)
        (handshake_failures peer) interval,
   failover ++ [SendHandshakeInitiation; ModTimer (U64.add jiffies interval)]).

(** Consecutive expiries of the retry timer, one [jiffies] reading each. *)
Fixpoint retry_expiries (js : list Z) (peer : undertheradar_peer)
  : undertheradar_peer * list timer_effect :=
  match js with
  | [] => (peer, [])
  | j :: js' =>
      let '(peer1, e1) := undertheradar_peer_check_handshake j peer in
      let '(peer2, e2) := retry_expiries js' peer1 in
      (peer2, e1 ++ e2)
  end.

End Handshake.

(** *** Routing lookup ([undertheradar_routing_lookup]) *)

Section Routing.

Variable sk_buff : Type.
Variable undertheradar_peer_matches_skb : undertheradar_peer -> sk_buff -> bool.

(** [atomic64_read(&peer->tx_bytes) + (peer->last_handshake_rtt * 1000)]
    stored in a [u64]. *)
Definition peer_load (peer : undertheradar_peer) : Z :=
  U64.add (tx_bytes peer) (U64.mul (last_handshake_rtt peer) 1000).

(** One iteration of the loop over [best_peer] and [lowest_load]. *)
Definition routing_step (skb : sk_buff)
    (acc : option undertheradar_peer * Z) (peer : undertheradar_peer)
  : option undertheradar_peer * Z :=
  if negb (undertheradar_peer_matches_skb peer skb) then acc
  else
    let load := peer_load peer in
    if load <? acc.2 then (Some peer, load) else acc.

Definition undertheradar_routing_lookup
    (peer_list : list undertheradar_peer) (skb : sk_buff)
  : option undertheradar_peer :=
  (fold_left (routing_step skb) peer_list (None, U64.max)).1.

End Routing.

(** Two peers with the same load score, 8000. *)
Definition peer_two : undertheradar_peer := Peer 2 5000 3 0 0.
Definition peer_one : undertheradar_peer := Peer 1 8000 0 0 0.
Definition match_all (p : undertheradar_peer) (skb : unit) : bool := true.

(** *** Further collaborators for the kill switch *)

Definition add_always_ok (fw : firewall) (r : option iptables_rule) : Z := 0.
Definition create_never (s : String.string) : option iptables_rule := None.

(** *** Counting the effects of the retry timer *)

Definition is_failover (e : timer_effect) : bool :=
  match e with TryAlternativeEndpoint => true | _ => false end.

Definition is_initiation (e : timer_effect) : bool :=
  match e with SendHandshakeInitiation => true | _ => false end.

Fixpoint count_effects (p : timer_effect -> bool) (l : list timer_effect) : nat :=
  match l with
  | [] => 0%nat
  | e :: l' => ((if p e then 1 else 0) + count_effects p l')%nat
  end.

(** *** NAPI poll ([undertheradar_poll]) *)

Section Poll.

Variable sk_buff : Type.

(** [undertheradar_packet_decrypt(skb, wg)]: the buffer with the plaintext
    when it returns 0, [None] for any other status. *)
Variable undertheradar_packet_decrypt : sk_buff -> option sk_buff.

Record poll_state := PollState {
  rx_queue : list sk_buff;        (* wg->rx_queue, next to dequeue first *)
  gro_received : list sk_buff;    (* napi_gro_receive, oldest first *)
  rx_freed : list sk_buff;        (* kfree_skb, oldest first *)
  rx_errors : Z;                  (* wg->dev->stats.rx_errors *)
  napi_completed : option Z }.    (* napi_complete_done(napi, work_done) *)

(** The [while] loop: the budget is tested before a buffer is dequeued. *)
Fixpoint poll_loop (budget : Z) (queue : list sk_buff) (work_done : Z)
    (gro freed : list sk_buff) (errors : Z)
  : Z * list sk_buff * list sk_buff * list sk_buff * Z :=
  if work_done <? budget then
    match queue with
    | [] => (work_done, [], gro, freed, errors)
    | skb :: queue' =>
        match undertheradar_packet_decrypt skb with
        | Some plain =>
            poll_loop budget queue' (work_done + 1) (gro ++ [plain]) freed errors
        | None =>
            poll_loop budget queue' work_done gro (freed ++ [skb])
                      (U64.add errors 1)
        end
    end
  else (work_done, queue, gro, freed, errors).

Definition undertheradar_poll (budget : Z) (st : poll_state) : Z * poll_state :=
  let '(work_done, queue, gro, freed, errors) :=
    poll_loop budget (rx_queue st) 0 (gro_received st) (rx_freed st)
              (rx_errors st) in
  (work_done,
   PollState queue gro freed errors
     (if work_done <? budget then Some work_done else napi_completed st)).

End Poll.

(** Buffers as numbers, of which the even ones decrypt. *)
Definition decrypt_even (skb : Z) : option Z :=
  if Z.even skb then Some (skb + 1) else None.

(** *** Transmit path ([undertheradar_xmit]) *)

Definition NETDEV_TX_OK : Z := 0.
Definition ENOKEY : Z := 126.

Section Xmit.

Variable sk_buff : Type.

(** Collaborators: [skb_gso_segment] gives an error pointer or the segments
    linked through [next]; [undertheradar_packet_encrypt] gives the
    encrypted buffer when it returns 0; [split_tunnel_enabled] reads the
    field of that name of the peer. *)
Variable skb_is_gso : sk_buff -> bool.
Variable skb_gso_segment : sk_buff -> Z + (sk_buff * list sk_buff).
Variable undertheradar_peer_matches_skb : undertheradar_peer -> sk_buff -> bool.
Variable split_tunnel_enabled : undertheradar_peer -> bool.
Variable should_bypass_tunnel : sk_buff -> undertheradar_peer -> bool.
Variable undertheradar_bypass_tunnel : sk_buff -> Z.
Variable undertheradar_packet_encrypt
  : sk_buff -> undertheradar_peer -> option sk_buff.

Record xmit_effects := XmitEffects {
  tx_queued : list sk_buff;       (* undertheradar_packet_queue_tx, in order *)
  tx_freed : list sk_buff;        (* consume_skb, kfree_skb, kfree_skb_list *)
  peer_tx_errors : Z;             (* increments of peer->tx_errors *)
  dev_tx_errors : Z;              (* increments of dev->stats.tx_errors *)
  sent_now : option undertheradar_peer;   (* undertheradar_packet_send_now *)
  bypassed : option sk_buff }.    (* undertheradar_bypass_tunnel *)

(** The [do ... while (skb)] loop over the buffers linked through [next]. *)
Fixpoint encrypt_and_queue (peer : undertheradar_peer) (chain : list sk_buff)
    (queued freed : list sk_buff) (errors : Z)
  : list sk_buff * list sk_buff * Z :=
  match chain with
  | [] => (queued, freed, errors)
  | skb :: next =>
      match undertheradar_packet_encrypt skb peer with
      | Some sealed =>
          encrypt_and_queue peer next (queued ++ [sealed]) freed errors
      | None =>
          encrypt_and_queue peer next queued (freed ++ [skb]) (errors + 1)
      end
  end.

(** The label [err]: the buffers are freed and the device counts one
    error. *)
Definition xmit_err (ret : Z) (freed : list sk_buff) : Z * xmit_effects :=
  (ret, XmitEffects [] freed 0 1 None None).

(** [skb] is the buffer handed to the device, [next] the buffers linked
    after it. *)
Definition undertheradar_xmit (peer_list : list undertheradar_peer)
    (skb : sk_buff) (next : list sk_buff) : Z * xmit_effects :=
  let segmented :=
    if skb_is_gso skb then
      match skb_gso_segment skb with
      | inl err => inl err
      | inr (seg, segs) => inr (seg, segs, [skb])
      end
    else inr (skb, next, []) in
  match segmented with
  | inl err => xmit_err err (skb :: next)
  | inr (head, rest, consumed) =>
      match undertheradar_routing_lookup sk_buff undertheradar_peer_matches_skb
              peer_list head with
      | None => xmit_err (- ENOKEY) (consumed ++ head :: rest)
      | Some peer =>
          if split_tunnel_enabled peer && should_bypass_tunnel head peer
          then (undertheradar_bypass_tunnel head,
                XmitEffects [] consumed 0 0 None (Some head))
          else
            let '(queued, freed, errors) :=
              encrypt_and_queue peer (head :: rest) [] consumed 0 in
            (NETDEV_TX_OK,
             XmitEffects queued freed errors 0 (Some peer) None)
      end
  end.

End Xmit.

(** A device on which nothing is segmented and no peer splits the tunnel;
    buffers are numbers, of which the even ones encrypt. *)
Definition never_gso (skb : Z) : bool := false.
Definition no_segments (skb : Z) : Z + (Z * list Z) := inl (- ENOMEM).
Definition match_any (p : undertheradar_peer) (skb : Z) : bool := true.
Definition no_split (p : undertheradar_peer) : bool := false.
Definition no_bypass (skb : Z) (p : undertheradar_peer) : bool := false.
Definition bypass_ok (skb : Z) : Z := 0.
Definition encrypt_even (skb : Z) (p : undertheradar_peer) : option Z :=
  if Z.even skb then Some (skb + 1) else None.

(** *** DNS leak protection ([undertheradar_setup_secure_dns]) *)

Record dns_config := DnsConfig {
  servers : list String.string;
  doh_enabled : bool;
  doh_server : option String.string }.

(** The two DNS fields of [struct undertheradar_device]. *)
Record dns_device := DnsDevice {
  dns_leak_protection : bool;
  secure_dns : option dns_config }.

Section SecureDns.

(** Whether [kzalloc] gives memory, and the status of
    [iptables_block_dns_except] for the servers and their number. *)
Variable kzalloc_ok : bool.
Variable iptables_block_dns_except : list String.string -> Z -> Z.

Definition internal_dns : list String.string :=
  ["10.0.0.1"%string; "10.0.0.2"%string].

Definition undertheradar_setup_secure_dns (wg : dns_device) : Z * dns_device :=
  if negb kzalloc_ok then (- ENOMEM, wg) else
  let ret := iptables_block_dns_except internal_dns 2 in
  if ret <? 0 then (ret, wg)
  else
    (0, DnsDevice true
          (Some (DnsConfig internal_dns true
                   (Some "https://dns.undertheradar.work/dns-query"%string)))).

End SecureDns.

(** *** Multi-hop chain ([undertheradar_add_hop]) *)

Definition WG_KEY_LEN : Z := 32.

Section Hops.

Variable sockaddr_storage : Type.

Record hop_node := HopNode {
  hop_public_key : list Byte.byte;
  hop_endpoint : sockaddr_storage }.

(** The hop fields of [struct undertheradar_device], and the number of
    calls of [undertheradar_recalculate_hop_routing]. *)
Record hop_device := HopDevice {
  multi_hop_enabled : bool;
  hop_chain : list hop_node;
  recalculations : nat }.

(** [memcpy] takes [WG_KEY_LEN] bytes from [public_key], which the caller
    provides. *)
Definition undertheradar_add_hop (kzalloc_ok : bool) (wg : hop_device)
    (public_key : list Byte.byte) (endpoint : sockaddr_storage)
  : Z * hop_device :=
  if negb kzalloc_ok then (- ENOMEM, wg)
  else
    let hop := HopNode (take (Z.to_nat WG_KEY_LEN) public_key) endpoint in
    (0, HopDevice (multi_hop_enabled wg) (hop_chain wg ++ [hop])
                  (S (recalculations wg))).

(** The hop stored for a key and an endpoint: the first 32 bytes of the
    key, and the endpoint. *)
Definition hop_of (h : bool * list Byte.byte * sockaddr_storage) : hop_node :=
  HopNode (take 32 h.1.2) h.2.

(** Hops added one after the other; each comes with the outcome of its
    allocation. *)
Fixpoint add_hops (wg : hop_device)
    (hops : list (bool * list Byte.byte * sockaddr_storage))
  : list Z * hop_device :=
  match hops with
  | [] => ([], wg)
  | (ok, key, endpoint) :: hops' =>
      let '(ret, wg1) := undertheradar_add_hop ok wg key endpoint in
      let '(rets, wg2) := add_hops wg1 hops' in
      (ret :: rets, wg2)
  end.

End Hops.

End Manager.

(** * Properties *)

(** ** Facts about the 64-bit operations *)

Module U64Facts.

Lemma modulus_eq : U64.modulus = 18446744073709551616.
Proof. reflexivity. Qed.

Lemma wrap_range x : 0 <= U64.wrap x < U64.modulus.
Proof. unfold U64.wrap. apply Z.mod_pos_bound. rewrite modulus_eq. lia. Qed.

Lemma wrap_small x : 0 <= x < U64.modulus -> U64.wrap x = x.
Proof. intros H. unfold U64.wrap. now apply Z.mod_small. Qed.

Lemma wrap_le x : 0 <= x -> U64.wrap x <= x.
Proof.
  intros H. unfold U64.wrap. apply Z.mod_le; [exact H|]. rewrite modulus_eq. lia.
Qed.

(** Whole parts add up to at most the whole part of the sum. *)
Lemma div_add_le a b n : 0 < n -> a / n + b / n <= (a + b) / n.
Proof.
  intros Hn. apply Z.div_le_lower_bound; [exact Hn|].
  pose proof (Z.mul_div_le a n Hn). pose proof (Z.mul_div_le b n Hn). lia.
Qed.

End U64Facts.

(** ** The token bucket *)

Module RateLimitProps.
Import Xdp U64Facts.

Lemma tokens_to_add_range rl now :
  0 <= tokens_to_add rl now < U64.modulus.
Proof.
  unfold tokens_to_add, U64.div, U64.mul, NSEC_PER_SEC.
  pose proof (wrap_range (U64.sub now (last_update rl) * rate)) as [H0 H1].
  split.
  - apply Z.div_pos; lia.
  - apply Z.div_lt_upper_bound; lia.
Qed.

Lemma refill_range rl now : 0 <= refill rl now <= burst.
Proof.
  unfold refill.
  pose proof (wrap_range (tokens rl + tokens_to_add rl now)) as [H0 _].
  fold (U64.add (tokens rl) (tokens_to_add rl now)) in H0.
  destruct (Z.ltb_spec burst (U64.add (tokens rl) (tokens_to_add rl now)));
    unfold burst in *; lia.
Qed.

Lemma spend_exact t :
  0 <= t <= burst -> spend t = t - (if 0 <? t then 1 else 0).
Proof.
  intros Ht. unfold spend, U64.sub.
  destruct (Z.ltb_spec 0 t); [|lia].
  apply wrap_small. rewrite modulus_eq. unfold burst in Ht. lia.
Qed.

Lemma check_rate_limit_some m ip now rl :
  m !! ip = Some rl ->
  check_rate_limit m ip now =
    (0 <? refill rl now,
     <[ip := RateLimit (spend (refill rl now)) now]> m).
Proof.
  intros H. unfold check_rate_limit, spend. rewrite H. cbv zeta.
  now destruct (0 <? refill rl now).
Qed.

Lemma check_rate_limit_none m ip now :
  m !! ip = None ->
  has_room m = true ->
  check_rate_limit m ip now = (true, <[ip := RateLimit burst now]> m).
Proof.
  intros H Hroom. unfold check_rate_limit, bpf_map_update_elem.
  now rewrite H, Hroom.
Qed.

(** On a full map the call for a new source stores nothing. *)
Lemma check_rate_limit_full m ip now :
  m !! ip = None ->
  has_room m = false ->
  check_rate_limit m ip now = (true, m).
Proof.
  intros H Hfull. unfold check_rate_limit, bpf_map_update_elem.
  now rewrite H, Hfull.
Qed.

(** C9: after every call of [check_rate_limit] the entry of the source, if
    there is one, holds [0 <= tokens <= burst]. On an existing entry the
    refill is clamped to [burst], the call succeeds exactly when the
    refilled count is positive, and the stored count is the refilled count
    minus the one token spent, with no wrap-around. For a source without an
    entry the call succeeds; the entry stored when the map has room starts
    at [burst], and a full map is left as it is, without an entry. *)
Theorem check_rate_limit_tokens_invariant
    (m : gmap Z rate_limit) (src_ip now : Z) :
  match (check_rate_limit m src_ip now).2 !! src_ip with
  | Some rl' => 0 <= tokens rl' <= burst
  | None => True
  end /\
  match m !! src_ip with
  | Some rl =>
      exists rl',
        (check_rate_limit m src_ip now).2 !! src_ip = Some rl' /\
        0 <= tokens rl' <= burst /\
        0 <= refill rl now <= burst /\
        (check_rate_limit m src_ip now).1 = (0 <? refill rl now) /\
        tokens rl' =
          refill rl now - (if (check_rate_limit m src_ip now).1 then 1 else 0)
  | None =>
      (check_rate_limit m src_ip now).1 = true /\
      if has_room m
      then exists rl',
             (check_rate_limit m src_ip now).2 !! src_ip = Some rl' /\
             0 <= tokens rl' <= burst /\
             tokens rl' = burst
      else (check_rate_limit m src_ip now).2 = m /\
           (check_rate_limit m src_ip now).2 !! src_ip = None
  end.
Proof.
  destruct (m !! src_ip) as [rl|] eqn:E.
  - rewrite (check_rate_limit_some _ _ _ _ E). cbn [fst snd].
    pose proof (refill_range rl now) as Hr.
    pose proof (spend_exact _ Hr) as Hs.
    rewrite lookup_insert_eq. cbn [tokens]. rewrite Hs.
    split; [destruct (Z.ltb_spec 0 (refill rl now)); lia|].
    eexists. split; [reflexivity|]. cbn [tokens].
    destruct (Z.ltb_spec 0 (refill rl now)); lia.
  - destruct (has_room m) eqn:Hroom.
    + rewrite (check_rate_limit_none _ _ _ E Hroom). cbn [fst snd].
      rewrite lookup_insert_eq. cbn [tokens].
      split; [unfold burst; lia|]. split; [reflexivity|].
      eexists. split; [reflexivity|]. cbn [tokens]. unfold burst. lia.
    + rewrite (check_rate_limit_full _ _ _ E Hroom). cbn [fst snd].
      rewrite E. auto.
Qed.

(** *** Runs of calls *)

Lemma run_calls_cons m ip t ts :
  run_calls m ip (t :: ts) =
    ((check_rate_limit m ip t).1
       :: (run_calls (check_rate_limit m ip t).2 ip ts).1,
     (run_calls (check_rate_limit m ip t).2 ip ts).2).
Proof.
  cbn [run_calls]. destruct (check_rate_limit m ip t) as [ok m1].
  cbn [fst snd]. now destruct (run_calls m1 ip ts).
Qed.

Lemma run_calls_app m ip ts1 ts2 :
  run_calls m ip (ts1 ++ ts2) =
    ((run_calls m ip ts1).1 ++ (run_calls (run_calls m ip ts1).2 ip ts2).1,
     (run_calls (run_calls m ip ts1).2 ip ts2).2).
Proof.
  revert m. induction ts1 as [|t ts1 IH]; intros m.
  - cbn. now destruct (run_calls m ip ts2).
  - rewrite <- app_comm_cons, !run_calls_cons, IH. reflexivity.
Qed.

Lemma run_calls_length m ip ts : length (run_calls m ip ts).1 = length ts.
Proof.
  revert m. induction ts as [|t ts IH]; intros m; [reflexivity|].
  rewrite run_calls_cons. cbn. now rewrite IH.
Qed.












(** *** Successes in a window of time *)

Lemma tokens_to_add_le rl now :
  0 <= last_update rl <= now -> now < U64.modulus ->
  tokens_to_add rl now <= rate * (now - last_update rl) / NSEC_PER_SEC.
Proof.
  intros Hlu Hnow. unfold tokens_to_add, U64.div, U64.mul, U64.sub.
  rewrite (wrap_small (now - last_update rl)) by lia.
  apply Z.div_le_mono; [reflexivity|].
  etransitivity; [apply wrap_le; unfold rate; lia|]. lia.
Qed.

Lemma refill_le rl now :
  0 <= tokens rl -> 0 <= last_update rl <= now -> now < U64.modulus ->
  refill rl now <= tokens rl + rate * (now - last_update rl) / NSEC_PER_SEC.
Proof.
  intros Ht Hlu Hnow. unfold refill.
  pose proof (tokens_to_add_le rl now Hlu Hnow) as Ha.
  pose proof (tokens_to_add_range rl now) as [Ha0 _].
  pose proof (wrap_le (tokens rl + tokens_to_add rl now) ltac:(lia)) as Hw.
  fold (U64.add (tokens rl) (tokens_to_add rl now)) in Hw.
  destruct (Z.ltb_spec burst (U64.add (tokens rl) (tokens_to_add rl now))); lia.
Qed.

Lemma monotone_tail t ts : monotone (t :: ts) -> monotone ts.
Proof. destruct ts as [|t' ts]; cbn; tauto. Qed.

Lemma monotone_app_r ts1 ts2 : monotone (ts1 ++ ts2) -> monotone ts2.
Proof.
  induction ts1 as [|t ts1 IH]; [trivial|].
  rewrite <- app_comm_cons. intros H. apply IH. exact (monotone_tail _ _ H).
Qed.

Lemma monotone_app_l ts1 ts2 : monotone (ts1 ++ ts2) -> monotone ts1.
Proof.
  induction ts1 as [|t ts1 IH]; [intros _; exact I|].
  destruct ts1 as [|t' ts1]; [intros _; exact I|].
  cbn. intros [Hle H]. split; [exact Hle|]. apply IH. exact H.
Qed.

(** From an existing entry, a run of calls succeeds at most as often as
    the refill of its first call plus what accrues until its last call. *)
Lemma run_existing_bound ts : forall m ip rl t0,
  m !! ip = Some rl ->
  monotone (t0 :: ts) ->
  Forall U64.in_range (t0 :: ts) ->
  successes (run_calls m ip (t0 :: ts)).1
    <= refill rl t0 + rate * (last_ts (t0 :: ts) - t0) / NSEC_PER_SEC.
Proof.
  induction ts as [|t1 ts IH]; intros m ip rl t0 Hm Hmono Hrange.
  - rewrite run_calls_cons, (check_rate_limit_some _ _ _ _ Hm).
    cbn [fst snd run_calls successes]. unfold last_ts. cbn [List.last].
    rewrite Z.sub_diag, Z.mul_0_r. change (0 / NSEC_PER_SEC) with 0.
    pose proof (refill_range rl t0).
    destruct (Z.ltb_spec 0 (refill rl t0)); lia.
  - rewrite run_calls_cons, (check_rate_limit_some _ _ _ _ Hm).
    cbn [fst snd successes].
    pose proof (refill_range rl t0) as Hr.
    pose proof (spend_exact _ Hr) as Hs.
    set (rl1 := RateLimit (spend (refill rl t0)) t0).
    inversion Hrange as [|? ? Ht0 Hrange1]; subst.
    inversion Hrange1 as [|? ? Ht1 _]; subst.
    destruct Hmono as [Hle Hmono1].
    specialize (IH (<[ip := rl1]> m) ip rl1 t1
                   (lookup_insert_eq _ _ _) Hmono1 Hrange1).
    assert (Hrf : refill rl1 t1
                  <= spend (refill rl t0) + rate * (t1 - t0) / NSEC_PER_SEC).
    { apply (refill_le rl1 t1); cbn [tokens last_update rl1].
      - rewrite Hs. destruct (Z.ltb_spec 0 (refill rl t0)); lia.
      - unfold U64.in_range in Ht0. lia.
      - unfold U64.in_range in Ht1. lia. }
    assert (Hlast : last_ts (t0 :: t1 :: ts) = last_ts (t1 :: ts))
      by reflexivity.
    rewrite Hlast.
    pose proof (div_add_le (rate * (t1 - t0))
                           (rate * (last_ts (t1 :: ts) - t1))
                           NSEC_PER_SEC ltac:(reflexivity)) as Hd.
    replace (rate * (t1 - t0) + rate * (last_ts (t1 :: ts) - t1))
      with (rate * (last_ts (t1 :: ts) - t0)) in Hd by lia.
    destruct (Z.ltb_spec 0 (refill rl t0)); lia.
Qed.

(** The results of the calls of a segment [win] of a longer run. *)
Lemma run_calls_segment m ip pre win post :
  take (length win) (drop (length pre) (run_calls m ip (pre ++ win ++ post)).1)
  = (run_calls (run_calls m ip pre).2 ip win).1.
Proof.
  rewrite !run_calls_app. cbn [fst snd].
  rewrite <- (run_calls_length m ip pre), drop_app_length.
  rewrite <- (run_calls_length (run_calls m ip pre).2 ip win).
  apply take_app_length.
Qed.

(** X3: In any window of length [T] of a run of calls, at whose first call
    the source has its entry or the map has room for it, the successes are
    at most [burst + 1 + rate * T]; the additional one is the call that
    creates the entry, and it is absent when the entry exists at the first
    call of the window. *)
Lemma window_bound m ip pre win post T :
  monotone (pre ++ win ++ post) ->
  Forall U64.in_range (pre ++ win ++ post) ->
  last_ts win - first_ts win <= T ->
  0 <= T ->
  (run_calls m ip pre).2 !! ip <> None \/
    has_room (run_calls m ip pre).2 = true ->
  let oks := take (length win)
               (drop (length pre) (run_calls m ip (pre ++ win ++ post)).1) in
  successes oks
    <= match (run_calls m ip pre).2 !! ip with Some _ => 0 | None => 1 end
       + burst + rate * T / NSEC_PER_SEC.
Proof.
  intros Hmono Hrange HT HT0 Hentry. cbv zeta. rewrite run_calls_segment.
  apply monotone_app_r, monotone_app_l in Hmono.
  apply Forall_app in Hrange as [_ Hrange].
  apply Forall_app in Hrange as [Hrange _].
  set (m1 := (run_calls m ip pre).2) in *.
  assert (Hdiv : forall d, d <= T ->
            rate * d / NSEC_PER_SEC <= rate * T / NSEC_PER_SEC).
  { intros d Hd. apply Z.div_le_mono; [reflexivity|]. unfold rate. lia. }
  assert (HT' : 0 <= rate * T / NSEC_PER_SEC).
  { apply Z.div_pos; [unfold rate; lia | reflexivity]. }
  destruct win as [|t0 ws].
  { cbn. destruct (m1 !! ip); unfold burst; lia. }
  destruct (m1 !! ip) as [rl|] eqn:E.
  - pose proof (run_existing_bound ws m1 ip rl t0 E Hmono Hrange) as Hb.
    pose proof (refill_range rl t0). specialize (Hdiv _ HT).
    cbn [first_ts hd] in Hdiv. lia.
  - destruct Hentry as [Hsome|Hroom]; [contradiction|].
    rewrite run_calls_cons, (check_rate_limit_none _ _ _ E Hroom).
    cbn [fst snd successes].
    destruct ws as [|t1 ws].
    { cbn. unfold burst. lia. }
    pose proof (run_existing_bound ws (<[ip := RateLimit burst t0]> m1) ip
                  (RateLimit burst t0) t1 (lookup_insert_eq _ _ _)
                  (monotone_tail _ _ Hmono)
                  (Forall_inv_tail Hrange)) as Hb.
    pose proof (refill_range (RateLimit burst t0) t1).
    destruct Hmono as [Hle _].
    change (last_ts (t0 :: t1 :: ws)) with (last_ts (t1 :: ws)) in HT.
    cbn [first_ts hd] in HT.
    specialize (Hdiv (last_ts (t1 :: ws) - t1) ltac:(lia)). lia.
Qed.

(** C1: a source without an entry that calls [burst + 1] times at one
    instant is accepted every time, so the successes in a window of length
    zero are [burst + 1], above [burst + rate * 0]. With one more call
    100 microseconds later, when exactly one token has accrued, there are
    [burst + 2] successes in a window for which [burst + rate * T] is
    [burst + 1] with nothing to round. *)
Theorem fresh_source_burst_overrun :
  let ts := replicate (Z.to_nat (burst + 1)) 0 in
  let oks := (run_calls ∅ ip_10_0_0_5 ts).1 in
  let ts' := ts ++ [100000] in
  let oks' := (run_calls ∅ ip_10_0_0_5 ts').1 in
  (last_ts ts - first_ts ts = 0 /\
   successes oks = burst + 1 /\
   burst + rate * 0 / NSEC_PER_SEC < successes oks) /\
  (last_ts ts' - first_ts ts' = 100000 /\
   (rate * 100000) mod NSEC_PER_SEC = 0 /\
   successes oks' = burst + 2 /\
   burst + rate * 100000 / NSEC_PER_SEC < successes oks').
Proof. vm_compute. repeat split; reflexivity. Qed.

End RateLimitProps.

(** ** The ingress filter *)

Module FilterProps.
Import Xdp.

(** Rule 2 fires when the declared end of the datagram lies more than 64
    bytes before the end of the captured data. *)
Lemma is_ddos_pattern_trailing host pkt ip :
  ip + bpf_ntohs host (ip_tot_len host pkt ip) < data_end pkt - 64 ->
  is_ddos_pattern host pkt ip = true.
Proof.
  intros H. unfold is_ddos_pattern.
  destruct (negb _); [reflexivity|].
  apply Z.ltb_lt in H. now rewrite H.
Qed.

(** When the captured data ends no more than 64 bytes after the declared
    end, and in particular when it ends before it, rule 2 is silent and
    the verdict is that of the other three rules. *)
Lemma is_ddos_pattern_short_capture host pkt ip :
  data_end pkt - 64 <= ip + bpf_ntohs host (ip_tot_len host pkt ip) ->
  is_ddos_pattern host pkt ip =
    negb (Z.land (ip_frag_off host pkt ip)
                 (bpf_htons host (Z.lor IP_MF IP_OFFSET)) =? 0)
    || (ip_ttl pkt ip <? 5)
    || ((ip_protocol pkt ip =? IPPROTO_TCP)
        && (ip + ip_ihl pkt ip * 4 + TCPHDR_LEN <=? data_end pkt)
        && tcp_syn pkt (ip + ip_ihl pkt ip * 4)
        && negb (tcp_ack pkt (ip + ip_ihl pkt ip * 4))).
Proof.
  intros H. unfold is_ddos_pattern.
  apply Z.ltb_ge in H. rewrite H.
  destruct (negb _); [reflexivity|].
  destruct (ip_ttl pkt ip <? 5); [reflexivity|].
  destruct (ip_protocol pkt ip =? IPPROTO_TCP); [|reflexivity].
  cbv zeta. destruct (_ <=? data_end pkt); [|reflexivity].
  cbn. now destruct (tcp_syn pkt (ip + ip_ihl pkt ip * 4)),
                 (tcp_ack pkt (ip + ip_ihl pkt ip * 4)).
Qed.

(** C2 as stated fails: an ICMP datagram that declares 1500 bytes, of
    which 20 were captured, reaches the DDoS check and passes. *)
Lemma truncated_frame_passes :
  (xdp_front env_le empty_maps frame_truncated).1 = ToDdosCheck ETH_HLEN /\
  (data_end frame_truncated - ETH_HLEN) + 64
    < bpf_ntohs LittleEndian (ip_tot_len LittleEndian frame_truncated ETH_HLEN) /\
  (xdp_vpn_filter env_le empty_maps frame_truncated).1 = XDP_PASS.
Proof. vm_compute. repeat split; reflexivity. Qed.

(** C2, amended: a packet that reaches the DDoS check and whose declared
    total length ends more than 64 bytes before the end of the captured
    data is dropped. *)
Theorem trailing_bytes_dropped
    (env : xdp_env) (m : xdp_maps) (pkt : list Byte.byte) (ip : Z) :
  (xdp_front env m pkt).1 = ToDdosCheck ip ->
  ip + bpf_ntohs (host env) (ip_tot_len (host env) pkt ip)
    < data_end pkt - 64 ->
  (xdp_vpn_filter env m pkt).1 = XDP_DROP.
Proof.
  intros Hfront Hlen. unfold xdp_vpn_filter.
  destruct (xdp_front env m pkt) as [s m1]. cbn [fst] in Hfront. subst s.
  now rewrite (is_ddos_pattern_trailing _ _ _ Hlen).
Qed.

Lemma trailing_bytes_dropped_witness :
  (xdp_front env_le empty_maps frame_trailing).1 = ToDdosCheck ETH_HLEN /\
  ETH_HLEN + bpf_ntohs (host env_le)
               (ip_tot_len (host env_le) frame_trailing ETH_HLEN)
    < data_end frame_trailing - 64 /\
  (xdp_vpn_filter env_le empty_maps frame_trailing).1 = XDP_DROP.
Proof.
  assert (H1 : (xdp_front env_le empty_maps frame_trailing).1
               = ToDdosCheck ETH_HLEN) by (vm_compute; reflexivity).
  assert (H2 : ETH_HLEN + bpf_ntohs (host env_le)
                 (ip_tot_len (host env_le) frame_trailing ETH_HLEN)
               < data_end frame_trailing - 64) by (vm_compute; reflexivity).
  split; [exact H1|]. split; [exact H2|].
  exact (trailing_bytes_dropped env_le empty_maps frame_trailing ETH_HLEN H1 H2).
Defined.

End FilterProps.

(** ** The egress program *)

Module EgressProps.
Import Xdp U64Facts.

Lemma ns_per_byte_zero : ns_per_byte = 0.
Proof. reflexivity. Qed.

Lemma pacing_delay_zero pkt_len : calculate_pacing_delay pkt_len = 0.
Proof.
  unfold calculate_pacing_delay, U64.mul.
  rewrite ns_per_byte_zero, Z.mul_0_r. reflexivity.
Qed.

(** C3: the nanoseconds per byte are [8 * 10^9 / 10^10] in integer
    arithmetic, which is 0; the delay is 0 for every length, also for the
    1500 bytes that the formula puts at 1200 ns, and the program never
    changes the transmit timestamp. *)
Theorem pacing_delay_always_zero :
  target_bps = 10 ^ 10 /\
  ns_per_byte = 0 /\
  (forall pkt_len, calculate_pacing_delay pkt_len = 0) /\
  calculate_pacing_delay 1500 = 0 /\
  (forall host now skb,
      skb_tstamp (tc_vpn_egress host now skb).2 = skb_tstamp skb).
Proof.
  split; [reflexivity|]. split; [reflexivity|].
  split; [exact pacing_delay_zero|]. split; [reflexivity|].
  intros host now skb. unfold tc_vpn_egress. cbv zeta.
  rewrite pacing_delay_zero. change (0 <? 0) with false. cbv iota.
  repeat case_match; reflexivity.
Qed.

(** *** DSCP marking *)

Lemma byte_at_range pkt off : 0 <= byte_at pkt off < 256.
Proof.
  unfold byte_at. destruct (off <? 0); [lia|].
  destruct (pkt !! Z.to_nat off) as [b|]; [|lia].
  pose proof (Byte.to_N_bounded b). lia.
Qed.

Lemma bswap16_bytes hi lo :
  0 <= hi < 256 -> 0 <= lo < 256 -> bswap16 (256 * hi + lo) = 256 * lo + hi.
Proof. intros Hhi Hlo. unfold bswap16. Z.div_mod_to_equations. lia. Qed.

(** The field [udp->dest] as loaded is [bpf_htons] of the port that the
    two bytes spell in network order. *)
Lemma udp_dest_is_htons host pkt udp :
  udp_dest host pkt udp =
    bpf_htons host (256 * byte_at pkt (udp + 2) + byte_at pkt (udp + 3)).
Proof.
  pose proof (byte_at_range pkt (udp + 2)) as Hhi.
  pose proof (byte_at_range pkt (udp + 3)) as Hlo.
  unfold udp_dest, load16, bpf_htons.
  replace (udp + 2 + 1) with (udp + 3) by lia.
  destruct host.
  - rewrite bswap16_bytes by assumption. lia.
  - rewrite Z.mod_small; lia.
Qed.

(** On a big-endian host the program marks by port as designed. *)
Lemma dscp_big_endian port :
  0 <= port < 65536 ->
  dscp_for_dest BigEndian (bpf_htons BigEndian port) = dscp_by_port port.
Proof.
  intros Hp. unfold dscp_for_dest, dscp_by_port, bpf_htons, WIREGUARD_PORT.
  rewrite (Z.mod_small port) by lia. reflexivity.
Qed.

(** On a little-endian host every port of the three designed classes gets
    its marking. *)
Lemma dscp_little_endian_classes port :
  0 <= port < 65536 ->
  dscp_by_port port <> None ->
  dscp_for_dest LittleEndian (bpf_htons LittleEndian port) = dscp_by_port port.
Proof.
  intros Hp. unfold dscp_for_dest, dscp_by_port, bpf_htons, WIREGUARD_PORT.
  change (bswap16 5060) with 50195. change (bswap16 5061) with 50451.
  change (bswap16 27000) with 30825. change (bswap16 27100) with 56425.
  change (bswap16 51820) with 27850.
  assert (Hb : bswap16 port = (port mod 256) * 256 + port / 256).
  { unfold bswap16. Z.div_mod_to_equations. lia. }
  destruct (Z.eqb_spec port 5060) as [->|H1]; [reflexivity|].
  destruct (Z.eqb_spec port 5061) as [->|H2]; [reflexivity|].
  cbn [orb].
  destruct (Z.eqb_spec (bswap16 port) 50195) as [E|_];
    [exfalso; rewrite Hb in E; Z.div_mod_to_equations; lia|].
  destruct (Z.eqb_spec (bswap16 port) 50451) as [E|_];
    [exfalso; rewrite Hb in E; Z.div_mod_to_equations; lia|].
  cbn [orb].
  destruct (Z.leb_spec 27000 port) as [H3|H3];
    [destruct (Z.leb_spec port 27100) as [H4|H4]|]; cbn [andb].
  - intros _.
    destruct (Z.leb_spec 30825 (bswap16 port)) as [_|E];
      [|exfalso; rewrite Hb in E; Z.div_mod_to_equations; lia].
    destruct (Z.leb_spec (bswap16 port) 56425) as [_|E];
      [|exfalso; rewrite Hb in E; Z.div_mod_to_equations; lia].
    reflexivity.
  - destruct (Z.eqb_spec port 51820) as [->|H5]; [reflexivity|].
    intros Hn. now contradiction Hn.
  - destruct (Z.eqb_spec port 51820) as [->|H5]; [lia|].
    intros Hn. now contradiction Hn.
Qed.

(** On a frame that carries UDP the marking is that of the chain on the
    destination field. *)
Lemma tc_marks_by_dest host now skb :
  egress_udp_frame host (skb_data skb) = true ->
  skb_data (tc_vpn_egress host now skb).2 =
    match dscp_for_dest host
            (udp_dest host (skb_data skb)
               (ETH_HLEN + ip_ihl (skb_data skb) ETH_HLEN * 4)) with
    | Some v => set_ip_tos (skb_data skb) ETH_HLEN v
    | None => skb_data skb
    end.
Proof.
  unfold egress_udp_frame. rewrite !andb_true_iff, !negb_true_iff.
  intros [[[[H1 H2] H3] H4] H5].
  unfold tc_vpn_egress. cbv zeta. rewrite H1, H2, H3, H4, H5. reflexivity.
Qed.

Lemma ip_tos_set pkt ip v :
  0 <= ip -> ip + 1 < data_end pkt -> 0 <= v < 256 ->
  ip_tos (set_ip_tos pkt ip v) ip = v.
Proof.
  intros Hip Hlen Hv. unfold ip_tos, set_ip_tos, byte_at, data_end in *.
  destruct (Z.ltb_spec (ip + 1) 0); [lia|].
  rewrite list_lookup_insert_eq by lia.
  unfold byte_of_Z. rewrite Z.mod_small by lia.
  destruct (Byte.of_N (Z.to_N v)) as [b|] eqn:E.
  - apply Byte.to_of_N in E. rewrite E. lia.
  - apply Byte.of_N_None_iff in E. lia.
Qed.

(** X15: On either host a UDP frame to a port of the three designed classes
    leaves with the marking of its class. *)
Lemma tc_marks_designed_classes host now skb v :
  let pkt := skb_data skb in
  let udp := ETH_HLEN + ip_ihl pkt ETH_HLEN * 4 in
  egress_udp_frame host pkt = true ->
  dscp_by_port (256 * byte_at pkt (udp + 2) + byte_at pkt (udp + 3)) = Some v ->
  ip_tos (skb_data (tc_vpn_egress host now skb).2) ETH_HLEN = v.
Proof.
  cbv zeta. intros Hframe Hclass.
  rewrite (tc_marks_by_dest _ _ _ Hframe), udp_dest_is_htons.
  set (udp := ETH_HLEN + ip_ihl (skb_data skb) ETH_HLEN * 4) in *.
  pose proof (byte_at_range (skb_data skb) (udp + 2)) as Hhi.
  pose proof (byte_at_range (skb_data skb) (udp + 3)) as Hlo.
  set (port := 256 * byte_at (skb_data skb) (udp + 2)
               + byte_at (skb_data skb) (udp + 3)) in *.
  assert (Hport : 0 <= port < 65536) by (unfold port; lia).
  assert (Hmark : dscp_for_dest host (bpf_htons host port) = Some v).
  { destruct host.
    - rewrite dscp_little_endian_classes; [exact Hclass | exact Hport |].
      now rewrite Hclass.
    - now rewrite dscp_big_endian. }
  rewrite Hmark. apply ip_tos_set.
  - unfold ETH_HLEN. lia.
  - unfold egress_udp_frame in Hframe.
    rewrite !andb_true_iff, !negb_true_iff in Hframe.
    destruct Hframe as [[[[_ _] H3] _] _].
    rewrite Z.gtb_ltb in H3. apply Z.ltb_ge in H3.
    unfold ETH_HLEN, IPHDR_LEN in *. lia.
  - unfold dscp_by_port, DSCP_EF, DSCP_AF41, DSCP_AF31 in Hclass.
    repeat case_match; simplify_eq; lia.
Qed.

(** C7: on a little-endian host a UDP datagram to port 121, which is in
    none of the three classes, leaves with the AF41 marking: the range
    test compares the port with its two bytes exchanged. *)
Theorem port_121_marked_af41 :
  let skb := SkBuff (frame_udp 121) 42 0 in
  let udp := ETH_HLEN + ip_ihl (skb_data skb) ETH_HLEN * 4 in
  bpf_ntohs LittleEndian (udp_dest LittleEndian (skb_data skb) udp) = 121 /\
  dscp_by_port 121 = None /\
  ip_tos (skb_data skb) ETH_HLEN = 0 /\
  ip_tos (skb_data (tc_vpn_egress LittleEndian 0 skb).2) ETH_HLEN = DSCP_AF41.
Proof. vm_compute. repeat split; reflexivity. Qed.

End EgressProps.

(** ** The manager *)

Module ManagerProps.
Import Manager U64Facts.

(** *** Message limits *)

(** C4: in arithmetic modulo [2^64] the constant [1ULL << 64] is 0, so the
    rejection ceiling is not above the rekey threshold [2^60]: every
    counter value has already reached it. A shifter that takes the count
    modulo 64 gives 1, which is not above the threshold either. *)
Theorem reject_after_messages_is_zero :
  REKEY_AFTER_MESSAGES = 2 ^ 60 /\
  REJECT_AFTER_MESSAGES = 0 /\
  ~ (REKEY_AFTER_MESSAGES < REJECT_AFTER_MESSAGES) /\
  (forall counter, REJECT_AFTER_MESSAGES <= U64.wrap counter) /\
  U64.shl_masked 1 64 = 1 /\
  ~ (REKEY_AFTER_MESSAGES < U64.shl_masked 1 64).
Proof.
  split; [reflexivity|]. split; [reflexivity|].
  change REKEY_AFTER_MESSAGES with 1152921504606846976.
  change REJECT_AFTER_MESSAGES with 0.
  change (U64.shl_masked 1 64) with 1.
  split; [lia|]. split; [|split; [reflexivity|lia]].
  intros counter. apply wrap_range.
Qed.

(** *** Kill switch *)

Section KillSwitchProps.

Variable create : String.string -> option iptables_rule.
Variable status : firewall -> option iptables_rule -> Z.

Lemma enable_when_enabled wg fw :
  kill_switch_enabled wg = true ->
  undertheradar_enable_kill_switch create status wg fw = (0, wg, fw).
Proof. intros H. unfold undertheradar_enable_kill_switch. now rewrite H. Qed.

(** X20: A failure on the first rule is reported and leaves both the device
    and the packet filter as they were. *)
Lemma enable_first_rule_failure wg fw :
  kill_switch_enabled wg = false ->
  match create (accept_rule wg) with
  | None => True
  | Some r => status fw (Some r) < 0
  end ->
  exists ret,
    ret < 0 /\
    undertheradar_enable_kill_switch create status wg fw = (ret, wg, fw).
Proof.
  intros Hoff Hfail. unfold undertheradar_enable_kill_switch.
  rewrite Hoff. destruct (create (accept_rule wg)) as [r|].
  - exists (status fw (Some r)). split; [exact Hfail|].
    unfold iptables_add_rule. apply Z.ltb_lt in Hfail.
    cbv zeta. rewrite Hfail. cbv iota beta. now rewrite Hfail.
  - exists (- ENOMEM). split; [unfold ENOMEM; lia | reflexivity].
Qed.

(** A failure on the second rule is reported as well, with the first
    rule installed and the flag set. *)
Lemma enable_second_rule_failure wg fw r :
  kill_switch_enabled wg = false ->
  create (accept_rule wg) = Some r ->
  0 <= status fw (Some r) ->
  status (fw ++ [r]) (create drop_rule) < 0 ->
  undertheradar_enable_kill_switch create status wg fw =
    (status (fw ++ [r]) (create drop_rule),
     Device (dev_name wg) true, fw ++ [r]).
Proof.
  intros Hoff Hc H1 H2. unfold undertheradar_enable_kill_switch.
  rewrite Hoff, Hc. unfold iptables_add_rule.
  apply Z.ltb_ge in H1. rewrite H1. cbv zeta iota beta.
  rewrite H1. apply Z.ltb_lt in H2.
  destruct (create drop_rule); now rewrite ?H2.
Qed.

End KillSwitchProps.

(** C6: with a packet filter that accepts the first rule and refuses the
    second, enabling the kill switch on [wg0] reports [-ENOMEM], yet the
    allow rule stays installed alone and the flag is set. *)
Theorem kill_switch_half_installed :
  kill_switch_enabled wg0 = false /\
  undertheradar_enable_kill_switch create_always add_fails_on_second wg0 [] =
    (- ENOMEM, Device "wg0" true, ["-A OUTPUT -o wg0 -j ACCEPT"%string]).
Proof. split; reflexivity. Qed.

(** *** Handshake retry timer *)

Section HandshakeProps.

Variable MAX_HANDSHAKE_RETRY : Z.

Lemma retry_expiries_cons j js peer :
  retry_expiries MAX_HANDSHAKE_RETRY (j :: js) peer =
    ((retry_expiries MAX_HANDSHAKE_RETRY js
        (undertheradar_peer_check_handshake MAX_HANDSHAKE_RETRY j peer).1).1,
     (undertheradar_peer_check_handshake MAX_HANDSHAKE_RETRY j peer).2
       ++ (retry_expiries MAX_HANDSHAKE_RETRY js
             (undertheradar_peer_check_handshake MAX_HANDSHAKE_RETRY j peer).1).2).
Proof.
  cbn [retry_expiries].
  destruct (undertheradar_peer_check_handshake _ j peer) as [p1 e1].
  cbn [fst snd]. now destruct (retry_expiries _ js p1).
Qed.

(** The handler writes the retry interval and nothing else. *)
Lemma retry_expiries_failures js : forall peer,
  handshake_failures (retry_expiries MAX_HANDSHAKE_RETRY js peer).1
  = handshake_failures peer.
Proof.
  induction js as [|j js IH]; intros peer; [reflexivity|].
  rewrite retry_expiries_cons. cbn [fst snd]. now rewrite IH.
Qed.

(** With at most 3 recorded failures no number of expiries asks for the
    alternative endpoint. *)
Lemma retry_expiries_no_failover js : forall peer,
  handshake_failures peer <= 3 ->
  TryAlternativeEndpoint ∉ (retry_expiries MAX_HANDSHAKE_RETRY js peer).2.
Proof.
  induction js as [|j js IH]; intros peer Hf.
  - cbn. apply not_elem_of_nil.
  - rewrite retry_expiries_cons. cbn [fst snd].
    unfold undertheradar_peer_check_handshake at 1. cbn [snd].
    destruct (Z.ltb_spec 3 (handshake_failures peer)); [lia|].
    cbn [app]. rewrite !not_elem_of_cons. split; [discriminate|].
    split; [discriminate|]. apply IH. cbn. exact Hf.
Qed.

(** With more than 3 recorded failures the handler asks for the
    alternative endpoint before it resends. *)
Lemma check_handshake_failover j peer :
  3 < handshake_failures peer ->
  exists interval,
    (undertheradar_peer_check_handshake MAX_HANDSHAKE_RETRY j peer).2 =
      [TryAlternativeEndpoint; SendHandshakeInitiation; ModTimer interval].
Proof.
  intros Hf. unfold undertheradar_peer_check_handshake. cbn [snd].
  apply Z.ltb_lt in Hf. rewrite Hf. eexists. reflexivity.
Qed.

(** X21: The interval after [k] expiries is [min (base * 2^k) cap]. *)
Lemma retry_expiries_interval js : forall peer,
  0 <= handshake_retry_interval peer <= MAX_HANDSHAKE_RETRY ->
  MAX_HANDSHAKE_RETRY < 2 ^ 63 ->
  handshake_retry_interval (retry_expiries MAX_HANDSHAKE_RETRY js peer).1
  = Z.min (handshake_retry_interval peer * 2 ^ Z.of_nat (length js))
          MAX_HANDSHAKE_RETRY.
Proof.
  induction js as [|j js IH]; intros peer Hb Hcap.
  - cbn [retry_expiries fst length]. change (2 ^ Z.of_nat 0) with 1. lia.
  - rewrite retry_expiries_cons. cbn [fst snd].
    set (p1 := (undertheradar_peer_check_handshake _ j peer).1).
    assert (H1 : handshake_retry_interval p1
                 = Z.min (handshake_retry_interval peer * 2)
                         MAX_HANDSHAKE_RETRY).
    { unfold p1, undertheradar_peer_check_handshake, U64.mul.
      cbn [fst handshake_retry_interval].
      rewrite wrap_small; [reflexivity|].
      rewrite modulus_eq. change (2 ^ 63) with 9223372036854775808 in Hcap.
      lia. }
    rewrite IH by (rewrite ?H1; lia). rewrite H1.
    cbn [length]. rewrite Nat2Z.inj_succ, Z.pow_succ_r by lia.
    pose proof (Z.pow_pos_nonneg 2 (Z.of_nat (length js))
                  ltac:(lia) ltac:(lia)) as Hpow.
    destruct (Z.le_gt_cases (handshake_retry_interval peer * 2)
                            MAX_HANDSHAKE_RETRY) as [Hle|Hgt].
    + rewrite (Z.min_l _ _ Hle). f_equal. lia.
    + rewrite (Z.min_r (handshake_retry_interval peer * 2)) by lia.
      rewrite !Z.min_r; [reflexivity| nia | nia].
Qed.

End HandshakeProps.

(** C5: the handler never writes the failure counter, whatever the cap,
    the number of expiries and the peer; five expiries in a row for a peer
    with no recorded failure double the interval from 5 up to the cap 80
    and resend each time, and none of them turns to the alternative
    endpoint. *)
Theorem retry_timer_never_counts_failures :
  (forall cap js peer,
      handshake_failures (retry_expiries cap js peer).1
      = handshake_failures peer) /\
  retry_expiries 80 [100; 110; 130; 170; 250] (Peer 1 0 0 0 5) =
    (Peer 1 0 0 0 80,
     [SendHandshakeInitiation; ModTimer 110;
      SendHandshakeInitiation; ModTimer 130;
      SendHandshakeInitiation; ModTimer 170;
      SendHandshakeInitiation; ModTimer 250;
      SendHandshakeInitiation; ModTimer 330]).
Proof.
  split; [|reflexivity].
  intros cap js peer. apply retry_expiries_failures.
Qed.

(** *** Routing lookup *)

Section RoutingProps.

Variable sk_buff : Type.
Variable matches : undertheradar_peer -> sk_buff -> bool.
Variable skb : sk_buff.

Let step := routing_step sk_buff matches skb.

(** State of the loop after the peers of [l]: no candidate below
    [U64_MAX] so far, or the first candidate of least load. *)
Lemma routing_loop_invariant (l : list undertheradar_peer) :
  match (fold_left step l (None, U64.max)).1 with
  | None =>
      (fold_left step l (None, U64.max)).2 = U64.max /\
      forall j q, l !! j = Some q -> matches q skb = true ->
                  U64.max <= peer_load q
  | Some p =>
      (fold_left step l (None, U64.max)).2 = peer_load p /\
      exists i : nat,
        l !! i = Some p /\
        matches p skb = true /\
        (forall j q, l !! j = Some q -> matches q skb = true ->
                     peer_load p <= peer_load q) /\
        (forall j q, (j < i)%nat -> l !! j = Some q ->
                     matches q skb = true -> peer_load p < peer_load q)
  end.
Proof.
  induction l as [|x l IH] using rev_ind.
  - cbn. split; [reflexivity|]. intros j q Hj. now rewrite lookup_nil in Hj.
  - rewrite fold_left_app. cbn [fold_left].
    destruct (fold_left step l (None, U64.max)) as [best low].
    cbn [fst snd] in IH.
    assert (Hstep : step (best, low) x =
              if negb (matches x skb) then (best, low)
              else if peer_load x <? low then (Some x, peer_load x)
                   else (best, low)) by reflexivity.
    rewrite Hstep. clear Hstep.
    assert (Hsnoc : forall j q, (l ++ [x]) !! j = Some q ->
              l !! j = Some q \/ (j = length l /\ q = x)).
    { intros j q Hj. apply lookup_app_Some in Hj as [Hj|[Hlen Hj]].
      - now left.
      - right. destruct (j - length l)%nat eqn:E; cbn in Hj; [|done].
        split; [lia|congruence]. }
    destruct (matches x skb) eqn:Hx; cbn [negb].
    + destruct (Z.ltb_spec (peer_load x) low) as [Hlt|Hge]; cbn [fst snd].
      * split; [reflexivity|]. exists (length l).
        split; [now rewrite lookup_app_r, Nat.sub_diag by lia|].
        split; [exact Hx|].
        destruct best as [p|].
        -- destruct IH as [-> (i & Hi & Hp & Hmin & _)].
           split.
           ++ intros j q Hj Hq. destruct (Hsnoc _ _ Hj) as [Hl|[_ ->]]; [|lia].
              specialize (Hmin _ _ Hl Hq). lia.
           ++ intros j q Hlt' Hj Hq.
              destruct (Hsnoc _ _ Hj) as [Hl|[-> _]]; [|lia].
              specialize (Hmin _ _ Hl Hq). lia.
        -- destruct IH as [-> Hall]. split.
           ++ intros j q Hj Hq. destruct (Hsnoc _ _ Hj) as [Hl|[_ ->]]; [|lia].
              specialize (Hall _ _ Hl Hq). lia.
           ++ intros j q Hlt' Hj Hq.
              destruct (Hsnoc _ _ Hj) as [Hl|[-> _]]; [|lia].
              specialize (Hall _ _ Hl Hq). lia.
      * destruct best as [p|].
        -- destruct IH as [-> (i & Hi & Hp & Hmin & Hfirst)].
           split; [reflexivity|]. exists i.
           split; [now apply lookup_app_l_Some|]. split; [exact Hp|].
           split.
           ++ intros j q Hj Hq. destruct (Hsnoc _ _ Hj) as [Hl|[_ ->]]; [|lia].
              exact (Hmin _ _ Hl Hq).
           ++ intros j q Hlt' Hj Hq.
              destruct (Hsnoc _ _ Hj) as [Hl|[-> _]].
              ** exact (Hfirst _ _ Hlt' Hl Hq).
              ** apply lookup_lt_Some in Hi. lia.
        -- destruct IH as [-> Hall]. split; [reflexivity|].
           intros j q Hj Hq. destruct (Hsnoc _ _ Hj) as [Hl|[_ ->]]; [|lia].
           exact (Hall _ _ Hl Hq).
    + destruct best as [p|].
      * destruct IH as [-> (i & Hi & Hp & Hmin & Hfirst)].
        split; [reflexivity|]. exists i.
        split; [now apply lookup_app_l_Some|]. split; [exact Hp|].
        split.
        -- intros j q Hj Hq.
           destruct (Hsnoc _ _ Hj) as [Hl|[_ ->]]; [|congruence].
           exact (Hmin _ _ Hl Hq).
        -- intros j q Hlt' Hj Hq.
           destruct (Hsnoc _ _ Hj) as [Hl|[_ ->]]; [|congruence].
           exact (Hfirst _ _ Hlt' Hl Hq).
      * destruct IH as [-> Hall]. split; [reflexivity|].
        intros j q Hj Hq.
        destruct (Hsnoc _ _ Hj) as [Hl|[_ ->]]; [|congruence].
        exact (Hall _ _ Hl Hq).
Qed.

(** C8, amended: when some candidate has a load score below [U64_MAX],
    the lookup returns the candidate of least score that comes first in
    the peer list: no candidate has a smaller score, and every candidate
    before it has a larger one. *)
Theorem routing_lookup_first_least_loaded
    (peer_list : list undertheradar_peer) :
  (exists j q, peer_list !! j = Some q /\ matches q skb = true /\
               peer_load q < U64.max) ->
  exists (i : nat) (best : undertheradar_peer),
    undertheradar_routing_lookup sk_buff matches peer_list skb = Some best /\
    peer_list !! i = Some best /\
    matches best skb = true /\
    (forall j q, peer_list !! j = Some q -> matches q skb = true ->
                 peer_load best <= peer_load q) /\
    (forall j q, (j < i)%nat -> peer_list !! j = Some q ->
                 matches q skb = true -> peer_load best < peer_load q).
Proof.
  intros (j & q & Hj & Hq & Hload).
  pose proof (routing_loop_invariant peer_list) as Hinv.
  unfold undertheradar_routing_lookup. fold step.
  destruct (fold_left step peer_list (None, U64.max)).1 as [p|].
  - destruct Hinv as [_ (i & Hi & Hp & Hmin & Hfirst)].
    exists i, p. auto.
  - destruct Hinv as [_ Hall]. specialize (Hall _ _ Hj Hq). lia.
Qed.

End RoutingProps.

(** Of two candidates with load scores [L1 < L2] the one with [L1] is
    returned, in either list order. *)
Lemma routing_lookup_two_peers (p1 p2 : undertheradar_peer) :
  peer_load p1 < peer_load p2 ->
  undertheradar_routing_lookup unit match_all [p1; p2] tt = Some p1 /\
  undertheradar_routing_lookup unit match_all [p2; p1] tt = Some p1.
Proof.
  intros Hlt.
  assert (H2 : peer_load p2 < U64.modulus) by apply wrap_range.
  unfold undertheradar_routing_lookup, routing_step, match_all.
  cbn [fold_left negb fst snd]. unfold U64.max.
  destruct (Z.ltb_spec (peer_load p1) (U64.modulus - 1)); [|lia].
  cbn [fst snd].
  destruct (Z.ltb_spec (peer_load p2) (peer_load p1)); [lia|].
  destruct (Z.ltb_spec (peer_load p2) (U64.modulus - 1)); cbn [fst snd].
  - destruct (Z.ltb_spec (peer_load p1) (peer_load p2)); [|lia]. now split.
  - destruct (Z.ltb_spec (peer_load p1) (U64.modulus - 1)); [|lia]. now split.
Qed.

(** C8 as stated fails: of two candidates with the same load score, 8000,
    the lookup returns the one listed first, here the one with the higher
    identifier. *)
Lemma routing_tie_goes_to_first_listed :
  peer_load peer_two = peer_load peer_one /\
  peer_id peer_one < peer_id peer_two /\
  undertheradar_routing_lookup unit match_all [peer_two; peer_one] tt
    = Some peer_two.
Proof. vm_compute. repeat split; reflexivity. Qed.

Lemma routing_lookup_first_least_loaded_witness :
  (exists j q, [peer_two; peer_one] !! j = Some q /\ match_all q tt = true /\
               peer_load q < U64.max) /\
  exists (i : nat) (best : undertheradar_peer),
    undertheradar_routing_lookup unit match_all [peer_two; peer_one] tt
      = Some best /\
    [peer_two; peer_one] !! i = Some best /\
    match_all best tt = true /\
    (forall j q, [peer_two; peer_one] !! j = Some q -> match_all q tt = true ->
                 peer_load best <= peer_load q) /\
    (forall j q, (j < i)%nat -> [peer_two; peer_one] !! j = Some q ->
                 match_all q tt = true -> peer_load best < peer_load q).
Proof.
  assert (H : exists j q, [peer_two; peer_one] !! j = Some q /\
                match_all q tt = true /\ peer_load q < U64.max).
  { exists 0%nat, peer_two. repeat split; reflexivity. }
  split; [exact H|].
  exact (routing_lookup_first_least_loaded unit match_all tt
           [peer_two; peer_one] H).
Defined.

End ManagerProps.


(** ** The token bucket over time *)

Module BucketDynamics.
Import Xdp U64Facts RateLimitProps.

(** Without wrap-around the tokens to add are the whole tokens accrued. *)
Lemma tokens_to_add_exact rl now :
  0 <= last_update rl <= now -> now - last_update rl <= MAX_IDLE_NS ->
  tokens_to_add rl now = (now - last_update rl) * rate / NSEC_PER_SEC.
Proof.
  intros Hlu Hidle. unfold tokens_to_add, U64.div, U64.mul, U64.sub.
  unfold MAX_IDLE_NS in Hidle.
  rewrite (wrap_small (now - last_update rl)) by (rewrite modulus_eq; lia).
  rewrite wrap_small by (rewrite modulus_eq; unfold rate; lia).
  reflexivity.
Qed.

Lemma refill_exact rl now :
  0 <= tokens rl <= burst ->
  0 <= last_update rl <= now -> now - last_update rl <= MAX_IDLE_NS ->
  refill rl now =
    Z.min burst (tokens rl + (now - last_update rl) * rate / NSEC_PER_SEC).
Proof.
  intros Ht Hlu Hidle. unfold refill.
  rewrite (tokens_to_add_exact _ _ Hlu Hidle).
  set (a := (now - last_update rl) * rate / NSEC_PER_SEC).
  assert (Ha : 0 <= a < 2 ^ 35).
  { unfold a, MAX_IDLE_NS, rate, NSEC_PER_SEC in *. split.
    - apply Z.div_pos; lia.
    - apply Z.div_lt_upper_bound; lia. }
  unfold U64.add. rewrite wrap_small
    by (rewrite modulus_eq; unfold burst in Ht; lia).
  destruct (Z.ltb_spec burst (tokens rl + a)); lia.
Qed.

(** X1: Calls that come less than 100 microseconds after one another add no
    token, however long they go on: a bucket with [n] tokens accepts the
    next [n] calls and refuses all the later ones. *)
Theorem closely_spaced_never_refills (ts : list Z) :
  forall (m : gmap Z rate_limit) (ip n lu : Z),
  m !! ip = Some (RateLimit n lu) ->
  0 <= n <= burst ->
  0 <= lu ->
  closely_spaced lu ts ->
  (run_calls m ip ts).1 =
    replicate (Z.to_nat n `min` length ts) true
      ++ replicate (length ts - Z.to_nat n) false.
Proof.
  induction ts as [|t ts IH]; intros m ip n lu Hm Hn Hlu Hsp.
  - cbn. now rewrite Nat.min_0_r.
  - destruct Hsp as [Ht Hsp].
    rewrite run_calls_cons, (check_rate_limit_some _ _ _ _ Hm). cbn [fst snd].
    assert (Hr : refill (RateLimit n lu) t = n).
    { rewrite refill_exact; cbn [tokens last_update];
        [| lia | lia | unfold MAX_IDLE_NS; lia].
      rewrite Z.div_small by (unfold rate, NSEC_PER_SEC; lia). lia. }
    rewrite Hr, spend_exact by lia.
    rewrite (IH _ ip (n - (if 0 <? n then 1 else 0)) t
                (lookup_insert_eq _ _ _)); [| | lia | exact Hsp].
    + destruct (Z.ltb_spec 0 n) as [Hpos|Hzero].
      * replace (Z.to_nat n) with (S (Z.to_nat (n - 1))) by lia.
        cbn [length Nat.min replicate Nat.sub app]. reflexivity.
      * replace n with 0 by lia. cbn [Z.to_nat Nat.min replicate app length].
        rewrite Z.sub_0_r. cbn [Z.to_nat Nat.min replicate app Nat.sub].
        now rewrite Nat.sub_0_r.
    + destruct (Z.ltb_spec 0 n); lia.
Qed.

Lemma closely_spaced_never_refills_witness :
  let m : gmap Z rate_limit := {[ ip_10_0_0_5 := RateLimit 2 0 ]} in
  let ts := [50000; 100000; 150000; 200000] in
  m !! ip_10_0_0_5 = Some (RateLimit 2 0) /\
  0 <= 2 <= burst /\ 0 <= 0 /\ closely_spaced 0 ts /\
  (run_calls m ip_10_0_0_5 ts).1 = [true; true; false; false].
Proof.
  cbv zeta.
  assert (H1 : ({[ ip_10_0_0_5 := RateLimit 2 0 ]} : gmap Z rate_limit)
               !! ip_10_0_0_5 = Some (RateLimit 2 0)) by reflexivity.
  assert (H2 : 0 <= 2 <= burst) by (unfold burst; lia).
  assert (H3 : 0 <= 0) by lia.
  assert (H4 : closely_spaced 0 [50000; 100000; 150000; 200000])
    by (cbn; lia).
  repeat (split; [assumption|]).
  exact (closely_spaced_never_refills _ _ _ _ _ H1 H2 H3 H4).
Defined.

(** X2: A call that comes at least 100 microseconds after the last one of its
    source (and within the range in which the product does not wrap) is
    accepted; after 100 milliseconds the bucket is full again and the call
    leaves [burst - 1] tokens. *)
Theorem spaced_call_accepted
    (m : gmap Z rate_limit) (ip now : Z) (rl : rate_limit) :
  m !! ip = Some rl ->
  0 <= tokens rl <= burst ->
  0 <= last_update rl ->
  last_update rl + 100000 <= now ->
  now - last_update rl <= MAX_IDLE_NS ->
  (check_rate_limit m ip now).1 = true /\
  (last_update rl + 100000000 <= now ->
   (check_rate_limit m ip now).2 !! ip = Some (RateLimit (burst - 1) now)).
Proof.
  intros Hm Ht Hlu Hgap Hidle.
  rewrite (check_rate_limit_some _ _ _ _ Hm). cbn [fst snd].
  rewrite refill_exact by lia.
  set (a := (now - last_update rl) * rate / NSEC_PER_SEC).
  assert (Ha : 1 <= a).
  { unfold a. apply Z.div_le_lower_bound; unfold rate, NSEC_PER_SEC; lia. }
  split.
  - apply Z.ltb_lt. unfold burst in *. lia.
  - intros Hlong. rewrite lookup_insert_eq. do 2 f_equal.
    assert (Ha' : burst <= a).
    { unfold a. apply Z.div_le_lower_bound;
        unfold rate, NSEC_PER_SEC, burst; lia. }
    rewrite Z.min_l by lia. rewrite spend_exact by (unfold burst; lia).
    reflexivity.
Qed.

Lemma spaced_call_accepted_witness :
  let m : gmap Z rate_limit := {[ ip_10_0_0_5 := RateLimit 0 1000 ]} in
  let now := 100000000000 in
  m !! ip_10_0_0_5 = Some (RateLimit 0 1000) /\
  0 <= 0 <= burst /\ 0 <= 1000 /\ 1000 + 100000 <= now /\
  now - 1000 <= MAX_IDLE_NS /\
  (check_rate_limit m ip_10_0_0_5 now).1 = true /\
  (check_rate_limit m ip_10_0_0_5 now).2 !! ip_10_0_0_5
  = Some (RateLimit (burst - 1) now).
Proof.
  cbv zeta.
  assert (H1 : ({[ ip_10_0_0_5 := RateLimit 0 1000 ]} : gmap Z rate_limit)
               !! ip_10_0_0_5 = Some (RateLimit 0 1000)) by reflexivity.
  assert (H2 : 0 <= 0 <= burst) by (unfold burst; lia).
  assert (H3 : 0 <= 1000) by lia.
  assert (H4 : 1000 + 100000 <= 100000000000) by lia.
  assert (H5 : 100000000000 - 1000 <= MAX_IDLE_NS)
    by (unfold MAX_IDLE_NS; lia).
  repeat (split; [assumption|]).
  destruct (spaced_call_accepted _ ip_10_0_0_5 100000000000
              (RateLimit 0 1000) H1 H2 H3 H4 H5) as [Hok Hfull].
  split; [exact Hok|]. apply Hfull. cbn. lia.
Defined.

Lemma window_bound_witness :
  let pre := [0; 50] in
  let win := [100; 100; 100100] in
  let post := [200000] in
  let oks := take (length win)
               (drop (length pre)
                  (run_calls ∅ ip_10_0_0_5 (pre ++ win ++ post)).1) in
  monotone (pre ++ win ++ post) /\
  Forall U64.in_range (pre ++ win ++ post) /\
  last_ts win - first_ts win <= 100000 /\
  0 <= 100000 /\
  ((run_calls ∅ ip_10_0_0_5 pre).2 !! ip_10_0_0_5 <> None \/
   has_room (run_calls ∅ ip_10_0_0_5 pre).2 = true) /\
  successes oks
    <= match (run_calls ∅ ip_10_0_0_5 pre).2 !! ip_10_0_0_5 with
       | Some _ => 0
       | None => 1
       end + burst + rate * 100000 / NSEC_PER_SEC.
Proof.
  cbv zeta.
  assert (H1 : monotone ([0; 50] ++ [100; 100; 100100] ++ [200000]))
    by (cbn; lia).
  assert (H2 : Forall U64.in_range ([0; 50] ++ [100; 100; 100100] ++ [200000]))
    by (repeat constructor; vm_compute; discriminate).
  assert (H3 : last_ts [100; 100; 100100] - first_ts [100; 100; 100100]
               <= 100000) by (vm_compute; discriminate).
  assert (H4 : 0 <= 100000) by lia.
  assert (H5 : (run_calls ∅ ip_10_0_0_5 [0; 50]).2 !! ip_10_0_0_5 <> None \/
               has_room (run_calls ∅ ip_10_0_0_5 [0; 50]).2 = true)
    by (right; vm_compute; reflexivity).
  repeat (split; [assumption|]).
  exact (window_bound ∅ ip_10_0_0_5 [0; 50] [100; 100; 100100] [200000]
           100000 H1 H2 H3 H4 H5).
Defined.

End BucketDynamics.

(** ** What the ingress filter keeps and what it never does *)

Module FilterInvariants.
Import Xdp U64Facts RateLimitProps EgressProps.

(** The path of a frame that is not for the tunnel port: it is only
    counted, and only when it has an Ethernet header. *)
Lemma xdp_front_other env m pkt :
  is_wireguard_frame (host env) pkt = false ->
  (xdp_front env m pkt).2 =
    if ETH_HLEN >? data_end pkt then m
    else with_stats (count_rx (data_end pkt)) m.
Proof.
  unfold is_wireguard_frame, xdp_front. cbv zeta.
  destruct (ETH_HLEN >? data_end pkt); [reflexivity|].
  destruct (eth_h_proto (host env) pkt =? bpf_htons (host env) ETH_P_IP);
    [|reflexivity].
  destruct (ETH_HLEN + IPHDR_LEN >? data_end pkt); [reflexivity|].
  destruct (ip_protocol pkt ETH_HLEN =? IPPROTO_UDP); [|reflexivity].
  destruct (ETH_HLEN + ip_ihl pkt ETH_HLEN * 4 + UDPHDR_LEN >? data_end pkt);
    [reflexivity|].
  destruct (udp_dest (host env) pkt (ETH_HLEN + ip_ihl pkt ETH_HLEN * 4)
            =? bpf_htons (host env) WIREGUARD_PORT); [|reflexivity].
  destruct (ETH_HLEN + ip_ihl pkt ETH_HLEN * 4 + UDPHDR_LEN + WGHDR_LEN
            >? data_end pkt); [reflexivity|].
  cbn. discriminate.
Qed.

Lemma xdp_front_other_stage env m pkt :
  is_wireguard_frame (host env) pkt = false ->
  (xdp_front env m pkt).1 = Returned XDP_DROP \/
  (xdp_front env m pkt).1 = Returned XDP_PASS \/
  (xdp_front env m pkt).1 = ToDdosCheck ETH_HLEN.
Proof.
  unfold is_wireguard_frame, xdp_front. cbv zeta.
  destruct (ETH_HLEN >? data_end pkt); [auto|].
  destruct (eth_h_proto (host env) pkt =? bpf_htons (host env) ETH_P_IP);
    [|auto].
  destruct (ETH_HLEN + IPHDR_LEN >? data_end pkt); [auto|].
  destruct (ip_protocol pkt ETH_HLEN =? IPPROTO_UDP); [|auto].
  destruct (ETH_HLEN + ip_ihl pkt ETH_HLEN * 4 + UDPHDR_LEN >? data_end pkt);
    [auto|].
  destruct (udp_dest (host env) pkt (ETH_HLEN + ip_ihl pkt ETH_HLEN * 4)
            =? bpf_htons (host env) WIREGUARD_PORT); [|auto].
  destruct (ETH_HLEN + ip_ihl pkt ETH_HLEN * 4 + UDPHDR_LEN + WGHDR_LEN
            >? data_end pkt); [auto|].
  cbn. discriminate.
Qed.

(** The path of a frame for the tunnel port. *)
Lemma xdp_front_wireguard env m pkt :
  is_wireguard_frame (host env) pkt = true ->
  xdp_front env m pkt =
    let h := host env in
    let m1 := with_stats (count_rx (data_end pkt)) m in
    let r := check_rate_limit (rate_limit_map m) (ip_saddr h pkt ETH_HLEN)
                              (ktime_rate env) in
    let m2 := XdpMaps (stats_map m1) r.2 (flow_table m) in
    if negb r.1 then (Returned XDP_DROP, with_stats count_dropped m2)
    else if wg_type pkt (ETH_HLEN + ip_ihl pkt ETH_HLEN * 4 + UDPHDR_LEN)
            =? WIREGUARD_MESSAGE_DATA
    then match flow_table m !! packet_flow_key h pkt with
         | Some fs =>
             (Returned (bpf_redirect_map (cpu_map env) (smp_processor_id env)),
              XdpMaps (stats_map m1) r.2
                (<[packet_flow_key h pkt :=
                     FlowState (U64.add (packets fs) 1)
                               (U64.add (bytes fs) (data_end pkt))
                               (ktime_flow env) (state fs)]> (flow_table m)))
         | None => (ToDdosCheck ETH_HLEN, m2)
         end
    else (ToDdosCheck ETH_HLEN, m2).
Proof.
  unfold is_wireguard_frame. rewrite !andb_true_iff, !negb_true_iff.
  intros [[[[[[H1 H2] H3] H4] H5] H6] H7].
  unfold xdp_front. cbv zeta. rewrite H1, H2, H3, H4, H5, H6, H7.
  cbn [negb with_stats rate_limit_map stats_map flow_table].
  destruct (check_rate_limit (rate_limit_map m) _ (ktime_rate env)) as [ok rl].
  cbn [fst snd rate_limit_map stats_map flow_table].
  destruct ok; reflexivity.
Qed.

Lemma filter_tables_of_front env m pkt :
  rate_limit_map (xdp_vpn_filter env m pkt).2
    = rate_limit_map (xdp_front env m pkt).2 /\
  flow_table (xdp_vpn_filter env m pkt).2 = flow_table (xdp_front env m pkt).2.
Proof.
  unfold xdp_vpn_filter. destruct (xdp_front env m pkt) as [[a|ip] m1].
  - now split.
  - destruct (is_ddos_pattern (host env) pkt ip); now split.
Qed.

Lemma check_rate_limit_other m ip now ip' :
  ip' <> ip -> (check_rate_limit m ip now).2 !! ip' = m !! ip'.
Proof.
  intros Hne. unfold check_rate_limit, bpf_map_update_elem.
  destruct (m !! ip) as [rl|];
    [destruct (0 <? refill rl now)|destruct (has_room m)];
    cbn [snd]; rewrite ?lookup_insert_ne by congruence; reflexivity.
Qed.

Lemma front_rate_limit_map env m pkt :
  rate_limit_map (xdp_front env m pkt).2 =
    if is_wireguard_frame (host env) pkt
    then (check_rate_limit (rate_limit_map m)
            (ip_saddr (host env) pkt ETH_HLEN) (ktime_rate env)).2
    else rate_limit_map m.
Proof.
  destruct (is_wireguard_frame (host env) pkt) eqn:Hwg.
  - rewrite (xdp_front_wireguard _ _ _ Hwg). cbv zeta.
    repeat case_match; reflexivity.
  - rewrite (xdp_front_other _ _ _ Hwg). now case_match.
Qed.

(** X4: The filter touches the bucket of no source but the sender of a frame
    for the tunnel port, and that one only through [check_rate_limit]; any
    other frame leaves every bucket as it was. *)
Theorem rate_limit_map_after_frame
    (env : xdp_env) (m : xdp_maps) (pkt : list Byte.byte) (ip' : Z) :
  let saddr := ip_saddr (host env) pkt ETH_HLEN in
  rate_limit_map (xdp_vpn_filter env m pkt).2 !! ip' =
    if is_wireguard_frame (host env) pkt && bool_decide (ip' = saddr)
    then (check_rate_limit (rate_limit_map m) saddr (ktime_rate env)).2 !! ip'
    else rate_limit_map m !! ip'.
Proof.
  cbv zeta. destruct (filter_tables_of_front env m pkt) as [-> _].
  rewrite front_rate_limit_map.
  destruct (is_wireguard_frame (host env) pkt); [|reflexivity]. cbn [andb].
  destruct (bool_decide_reflect (ip' = ip_saddr (host env) pkt ETH_HLEN))
    as [_|Hne]; [reflexivity|].
  now apply check_rate_limit_other.
Qed.

(** *** The flow table *)

Lemma front_flow_table env m pkt :
  dom (flow_table (xdp_front env m pkt).2) = dom (flow_table m) /\
  match (xdp_front env m pkt).1 with
  | Returned XDP_REDIRECT | Returned XDP_ABORTED =>
      is_Some (flow_table m !! packet_flow_key (host env) pkt)
  | _ => True
  end.
Proof.
  destruct (is_wireguard_frame (host env) pkt) eqn:Hwg.
  - rewrite (xdp_front_wireguard _ _ _ Hwg). cbv zeta.
    destruct (negb _); [now split|].
    destruct (_ =? WIREGUARD_MESSAGE_DATA); [|now split].
    destruct (flow_table m !! packet_flow_key (host env) pkt) as [fs|] eqn:E;
      [|now split].
    cbn [fst snd flow_table]. split.
    + apply dom_insert_lookup_L. now rewrite E.
    + unfold bpf_redirect_map. now case_match.
  - split; [now rewrite (xdp_front_other _ _ _ Hwg); case_match|].
    destruct (xdp_front_other_stage env m pkt Hwg) as [->|[->| ->]]; exact I.
Qed.

Lemma filter_flow_table env m pkt :
  dom (flow_table (xdp_vpn_filter env m pkt).2) = dom (flow_table m) /\
  ((xdp_vpn_filter env m pkt).1 = XDP_REDIRECT \/
   (xdp_vpn_filter env m pkt).1 = XDP_ABORTED ->
   is_Some (flow_table m !! packet_flow_key (host env) pkt)).
Proof.
  destruct (filter_tables_of_front env m pkt) as [_ ->].
  destruct (front_flow_table env m pkt) as [Hdom Hfast].
  split; [exact Hdom|].
  unfold xdp_vpn_filter. destruct (xdp_front env m pkt) as [[a|ip] m1].
  - cbn [fst] in *. intros [->| ->]; exact Hfast.
  - destruct (is_ddos_pattern (host env) pkt ip); cbn [fst];
      intros [?|?]; discriminate.
Qed.

(** X5: The filter never adds or removes a flow: after any sequence of frames
    the flow table has the keys it had before. *)
Theorem flow_table_keys_fixed
    (inputs : list (xdp_env * list Byte.byte)) (m : xdp_maps) :
  dom (flow_table (xdp_filter_all m inputs).2) = dom (flow_table m).
Proof.
  revert m. induction inputs as [|[env pkt] rest IH]; intros m; [reflexivity|].
  cbn [xdp_filter_all].
  destruct (xdp_vpn_filter env m pkt) as [a m1] eqn:E.
  specialize (IH m1). destruct (xdp_filter_all m1 rest) as [acts m2].
  cbn [snd] in *. rewrite IH.
  pose proof (filter_flow_table env m pkt) as [Hdom _].
  now rewrite E in Hdom.
Qed.

(** X6: Started on an empty flow table, the filter answers every frame of
    every sequence with DROP or PASS: the redirect of the fast path is
    never taken. *)
Theorem no_fast_path_without_flows
    (inputs : list (xdp_env * list Byte.byte))
    (stats : vpn_stats) (rates : gmap Z rate_limit) :
  Forall (fun a => a = XDP_DROP \/ a = XDP_PASS)
         (xdp_filter_all (XdpMaps stats rates ∅) inputs).1.
Proof.
  assert (Hgen : forall m, flow_table m = ∅ ->
            Forall (fun a => a = XDP_DROP \/ a = XDP_PASS)
                   (xdp_filter_all m inputs).1).
  { induction inputs as [|[env pkt] rest IH]; intros m Hm; [constructor|].
    cbn [xdp_filter_all].
    destruct (xdp_vpn_filter env m pkt) as [a m1] eqn:E.
    pose proof (filter_flow_table env m pkt) as [Hdom Hfast].
    rewrite E in Hdom, Hfast. cbn [fst snd] in *.
    assert (Hm1 : flow_table m1 = ∅).
    { apply dom_empty_inv_L. rewrite Hdom, Hm. apply dom_empty_L. }
    specialize (IH m1 Hm1). destruct (xdp_filter_all m1 rest) as [acts m2].
    cbn [fst] in *. constructor; [|exact IH].
    destruct a; auto; exfalso.
    - destruct Hfast as [fs Hfs]; [now right|].
      rewrite Hm, lookup_empty in Hfs. discriminate.
    - destruct Hfast as [fs Hfs]; [now left|].
      rewrite Hm, lookup_empty in Hfs. discriminate. }
  apply Hgen. reflexivity.
Qed.

(** *** The statistics *)

(** X7: One run of the filter counts the frame once in the receive counters,
    provided it has an Ethernet header, never changes the transmit counters
    or [invalid_packets], and raises [dropped_packets] by one at most, and
    then only if the verdict is DROP. *)
Theorem filter_counters
    (env : xdp_env) (m : xdp_maps) (pkt : list Byte.byte) :
  let r := xdp_vpn_filter env m pkt in
  let s := stats_map m in
  let s' := stats_map r.2 in
  tx_packets s' = tx_packets s /\
  tx_bytes s' = tx_bytes s /\
  invalid_packets s' = invalid_packets s /\
  (if ETH_HLEN >? data_end pkt
   then rx_packets s' = rx_packets s /\ rx_bytes s' = rx_bytes s
   else rx_packets s' = U64.add (rx_packets s) 1 /\
        rx_bytes s' = U64.add (rx_bytes s) (data_end pkt)) /\
  (dropped_packets s' = dropped_packets s \/
   (dropped_packets s' = U64.add (dropped_packets s) 1 /\ r.1 = XDP_DROP)).
Proof.
  cbv zeta. unfold xdp_vpn_filter.
  destruct (is_wireguard_frame (host env) pkt) eqn:Hwg.
  - rewrite (xdp_front_wireguard _ _ _ Hwg). cbv zeta.
    unfold is_wireguard_frame in Hwg.
    rewrite !andb_true_iff, !negb_true_iff in Hwg.
    destruct Hwg as [[[[[[H1 _] _] _] _] _] _]. rewrite H1.
    repeat case_match; simplify_eq; cbn; auto 10.
  - pose proof (xdp_front_other _ m _ Hwg) as Hmaps.
    pose proof (xdp_front_other_stage _ m _ Hwg) as Hstage.
    destruct (xdp_front env m pkt) as [st m1]. cbn [fst snd] in *. subst m1.
    destruct Hstage as [->|[->| ->]];
      repeat case_match; simplify_eq; cbn; auto 10.
Qed.

(** *** The DDoS rules *)

Lemma byte_pairs_all (P : Z -> Z -> bool) :
  forallb (fun a => forallb (P a) (seqZ 0 256)) (seqZ 0 256) = true ->
  forall a b, 0 <= a < 256 -> 0 <= b < 256 -> P a b = true.
Proof.
  intros Hall a b Ha Hb.
  rewrite forallb_forall in Hall.
  assert (Hina : In a (seqZ 0 256)) by (apply list_elem_of_In, elem_of_seqZ; lia).
  specialize (Hall a Hina). rewrite forallb_forall in Hall.
  apply Hall. apply list_elem_of_In, elem_of_seqZ. lia.
Qed.

(** The fragment mask applied to the field as loaded is zero exactly when
    the mask [0x3FFF] applied to the field in network order is. *)
Lemma frag_mask_either_host host a b :
  0 <= a < 256 -> 0 <= b < 256 ->
  (Z.land (match host with
           | LittleEndian => a + 256 * b
           | BigEndian => 256 * a + b
           end)
          (bpf_htons host (Z.lor IP_MF IP_OFFSET)) =? 0)
  = (Z.land (256 * a + b) (Z.lor IP_MF IP_OFFSET) =? 0).
Proof.
  intros Ha Hb. destruct host; [|reflexivity].
  apply eqb_prop.
  apply (byte_pairs_all
           (fun a b => Bool.eqb
              (Z.land (a + 256 * b)
                      (bpf_htons LittleEndian (Z.lor IP_MF IP_OFFSET)) =? 0)
              (Z.land (256 * a + b) (Z.lor IP_MF IP_OFFSET) =? 0)));
    [vm_compute; reflexivity | exact Ha | exact Hb].
Qed.

Lemma ntohs_load16 host pkt off :
  bpf_ntohs host (load16 host pkt off) = net16 pkt off.
Proof.
  pose proof (byte_at_range pkt off) as H0.
  pose proof (byte_at_range pkt (off + 1)) as H1.
  unfold bpf_ntohs, bpf_htons, load16, net16. destruct host.
  - replace (byte_at pkt off + 256 * byte_at pkt (off + 1))
      with (256 * byte_at pkt (off + 1) + byte_at pkt off) by lia.
    now rewrite bswap16_bytes.
  - apply Z.mod_small. lia.
Qed.

(** X8: The verdict of [is_ddos_pattern] does not depend on the byte order of
    the host: on either host it is that of the four rules read on the
    fields in network order. *)
Theorem is_ddos_pattern_host_independent
    (host : endianness) (pkt : list Byte.byte) (ip : Z) :
  is_ddos_pattern host pkt ip = ddos_rules pkt ip.
Proof.
  unfold is_ddos_pattern, ddos_rules, ip_frag_off, ip_tot_len.
  rewrite ntohs_load16.
  assert (Hfrag : (Z.land (load16 host pkt (ip + 6))
                     (bpf_htons host (Z.lor IP_MF IP_OFFSET)) =? 0)
                  = (Z.land (net16 pkt (ip + 6)) (Z.lor IP_MF IP_OFFSET) =? 0)).
  { pose proof (frag_mask_either_host host _ _
                  (byte_at_range pkt (ip + 6)) (byte_at_range pkt (ip + 6 + 1)))
      as H.
    unfold load16, net16. destruct host; exact H. }
  rewrite Hfrag.
  destruct (negb _); [reflexivity|].
  destruct (_ <? data_end pkt - 64); [reflexivity|].
  destruct (ip_ttl pkt ip <? 5); [reflexivity|].
  destruct (ip_protocol pkt ip =? IPPROTO_TCP); [|reflexivity].
  cbv zeta. destruct (_ <=? data_end pkt); [|reflexivity].
  cbn. now destruct (tcp_syn pkt (ip + ip_ihl pkt ip * 4)),
                    (tcp_ack pkt (ip + ip_ihl pkt ip * 4)).
Qed.

(** *** Verdicts on the paths before the DDoS check *)

(** X9: A frame for the tunnel port whose sender has an empty bucket is dropped
    and counted, whatever the flow table and the DDoS rules say, and the
    bucket is stamped with the time of the refused frame. *)
Theorem empty_bucket_drops
    (env : xdp_env) (m : xdp_maps) (pkt : list Byte.byte) (rl : rate_limit) :
  let saddr := ip_saddr (host env) pkt ETH_HLEN in
  is_wireguard_frame (host env) pkt = true ->
  rate_limit_map m !! saddr = Some rl ->
  refill rl (ktime_rate env) = 0 ->
  xdp_vpn_filter env m pkt =
    (XDP_DROP,
     XdpMaps (count_dropped (count_rx (data_end pkt) (stats_map m)))
             (<[saddr := RateLimit 0 (ktime_rate env)]> (rate_limit_map m))
             (flow_table m)).
Proof.
  cbv zeta. intros Hwg Hrl Hempty. unfold xdp_vpn_filter.
  rewrite (xdp_front_wireguard _ _ _ Hwg). cbv zeta.
  rewrite (check_rate_limit_some _ _ _ _ Hrl), Hempty. reflexivity.
Qed.

Lemma empty_bucket_drops_witness :
  let env := XdpEnv LittleEndian 5000 5000 0 ∅ in
  let m := XdpMaps (VpnStats 0 0 0 0 0 0)
                   {[ ip_10_0_0_5 := RateLimit 0 0 ]} ∅ in
  let pkt := frame_wg 64 4 in
  is_wireguard_frame (host env) pkt = true /\
  rate_limit_map m !! ip_saddr (host env) pkt ETH_HLEN = Some (RateLimit 0 0) /\
  refill (RateLimit 0 0) (ktime_rate env) = 0 /\
  xdp_vpn_filter env m pkt =
    (XDP_DROP,
     XdpMaps (count_dropped (count_rx (data_end pkt) (stats_map m)))
             (<[ip_saddr (host env) pkt ETH_HLEN := RateLimit 0 (ktime_rate env)]>
                (rate_limit_map m))
             (flow_table m)).
Proof.
  cbv zeta.
  set (env := XdpEnv LittleEndian 5000 5000 0 ∅).
  set (m := XdpMaps (VpnStats 0 0 0 0 0 0) {[ ip_10_0_0_5 := RateLimit 0 0 ]} ∅).
  assert (H1 : is_wireguard_frame (host env) (frame_wg 64 4) = true)
    by (vm_compute; reflexivity).
  assert (H2 : rate_limit_map m !! ip_saddr (host env) (frame_wg 64 4) ETH_HLEN
               = Some (RateLimit 0 0)) by (vm_compute; reflexivity).
  assert (H3 : refill (RateLimit 0 0) (ktime_rate env) = 0)
    by (vm_compute; reflexivity).
  repeat (split; [assumption|]).
  exact (empty_bucket_drops env m (frame_wg 64 4) (RateLimit 0 0) H1 H2 H3).
Defined.

(** X10: A data message of a flow that is in the table, accepted by the bucket,
    is answered with the redirect and never shown to the DDoS rules; the
    flow counts one more packet and the length of the frame, and is stamped
    with the time. *)
Theorem established_flow_redirected
    (env : xdp_env) (m : xdp_maps) (pkt : list Byte.byte) (fs : flow_state) :
  let h := host env in
  let r := check_rate_limit (rate_limit_map m) (ip_saddr h pkt ETH_HLEN)
                            (ktime_rate env) in
  is_wireguard_frame h pkt = true ->
  r.1 = true ->
  wg_type pkt (ETH_HLEN + ip_ihl pkt ETH_HLEN * 4 + UDPHDR_LEN)
    = WIREGUARD_MESSAGE_DATA ->
  flow_table m !! packet_flow_key h pkt = Some fs ->
  xdp_vpn_filter env m pkt =
    (bpf_redirect_map (cpu_map env) (smp_processor_id env),
     XdpMaps (count_rx (data_end pkt) (stats_map m)) r.2
       (<[packet_flow_key h pkt :=
            FlowState (U64.add (packets fs) 1)
                      (U64.add (bytes fs) (data_end pkt))
                      (ktime_flow env) (state fs)]> (flow_table m))).
Proof.
  cbv zeta. intros Hwg Hok Htype Hflow. unfold xdp_vpn_filter.
  rewrite (xdp_front_wireguard _ _ _ Hwg). cbv zeta.
  rewrite Hok, Htype, Hflow. reflexivity.
Qed.

Lemma established_flow_redirected_witness :
  let env := XdpEnv LittleEndian 5000 6000 3 {[ 3 ]} in
  let pkt := frame_wg 1 4 in
  let fs := FlowState 10 1000 0 1 in
  let m := XdpMaps (VpnStats 0 0 0 0 0 0) ∅
                   {[ packet_flow_key LittleEndian pkt := fs ]} in
  is_ddos_pattern LittleEndian pkt ETH_HLEN = true /\
  (xdp_vpn_filter env m pkt).1 = XDP_REDIRECT /\
  flow_table (xdp_vpn_filter env m pkt).2 !! packet_flow_key LittleEndian pkt
  = Some (FlowState 11 1058 6000 1).
Proof.
  cbv zeta.
  set (env := XdpEnv LittleEndian 5000 6000 3 {[ 3 ]}).
  set (pkt := frame_wg 1 4).
  set (fs := FlowState 10 1000 0 1).
  set (m := XdpMaps (VpnStats 0 0 0 0 0 0) ∅
                    {[ packet_flow_key LittleEndian pkt := fs ]}).
  split; [vm_compute; reflexivity|].
  assert (H1 : is_wireguard_frame (host env) pkt = true)
    by (vm_compute; reflexivity).
  assert (H2 : (check_rate_limit (rate_limit_map m)
                  (ip_saddr (host env) pkt ETH_HLEN) (ktime_rate env)).1 = true)
    by reflexivity.
  assert (H3 : wg_type pkt (ETH_HLEN + ip_ihl pkt ETH_HLEN * 4 + UDPHDR_LEN)
               = WIREGUARD_MESSAGE_DATA) by (vm_compute; reflexivity).
  assert (H4 : flow_table m !! packet_flow_key (host env) pkt = Some fs)
    by apply lookup_singleton_eq.
  rewrite (established_flow_redirected env m pkt fs H1 H2 H3 H4).
  cbn [fst snd flow_table]. split.
  - vm_compute. reflexivity.
  - rewrite lookup_insert_eq. vm_compute. reflexivity.
Defined.

(** X11: A frame with an Ethernet header whose type is not IPv4 passes: it is
    counted as received and nothing else is read or written. *)
Theorem non_ipv4_passes
    (env : xdp_env) (m : xdp_maps) (pkt : list Byte.byte) :
  ETH_HLEN <= data_end pkt ->
  eth_h_proto (host env) pkt <> bpf_htons (host env) ETH_P_IP ->
  xdp_vpn_filter env m pkt =
    (XDP_PASS, with_stats (count_rx (data_end pkt)) m).
Proof.
  intros Hlen Hproto. unfold xdp_vpn_filter, xdp_front. cbv zeta.
  destruct (Z.gtb_spec ETH_HLEN (data_end pkt)); [lia|].
  destruct (Z.eqb_spec (eth_h_proto (host env) pkt)
                       (bpf_htons (host env) ETH_P_IP)); [contradiction|].
  reflexivity.
Qed.

Lemma non_ipv4_passes_witness :
  ETH_HLEN <= data_end frame_ipv6 /\
  eth_h_proto (host env_le) frame_ipv6 <> bpf_htons (host env_le) ETH_P_IP /\
  xdp_vpn_filter env_le empty_maps frame_ipv6 =
    (XDP_PASS, with_stats (count_rx (data_end frame_ipv6)) empty_maps).
Proof.
  assert (H1 : ETH_HLEN <= data_end frame_ipv6) by (vm_compute; discriminate).
  assert (H2 : eth_h_proto (host env_le) frame_ipv6
               <> bpf_htons (host env_le) ETH_P_IP)
    by (vm_compute; discriminate).
  repeat (split; [assumption|]).
  exact (non_ipv4_passes env_le empty_maps frame_ipv6 H1 H2).
Defined.

(** X12: A frame cut short of the Ethernet header, or an IPv4 frame cut short of
    the IP header, is dropped without a mark in [dropped_packets]; the
    first is not even counted as received. *)
Theorem short_frame_dropped_uncounted
    (env : xdp_env) (m : xdp_maps) (pkt : list Byte.byte) :
  data_end pkt < ETH_HLEN + IPHDR_LEN ->
  data_end pkt < ETH_HLEN \/
    eth_h_proto (host env) pkt = bpf_htons (host env) ETH_P_IP ->
  xdp_vpn_filter env m pkt =
    (XDP_DROP,
     if ETH_HLEN >? data_end pkt then m
     else with_stats (count_rx (data_end pkt)) m).
Proof.
  intros Hshort Hcase. unfold xdp_vpn_filter, xdp_front. cbv zeta.
  destruct (Z.gtb_spec ETH_HLEN (data_end pkt)) as [_|Hge]; [reflexivity|].
  destruct Hcase as [Hlt|Hip]; [lia|].
  rewrite Hip, Z.eqb_refl. cbn [negb].
  destruct (Z.gtb_spec (ETH_HLEN + IPHDR_LEN) (data_end pkt)); [reflexivity|lia].
Qed.

Lemma short_frame_dropped_uncounted_witness :
  data_end frame_cut < ETH_HLEN + IPHDR_LEN /\
  (data_end frame_cut < ETH_HLEN \/
   eth_h_proto (host env_le) frame_cut = bpf_htons (host env_le) ETH_P_IP) /\
  xdp_vpn_filter env_le empty_maps frame_cut =
    (XDP_DROP,
     if ETH_HLEN >? data_end frame_cut then empty_maps
     else with_stats (count_rx (data_end frame_cut)) empty_maps).
Proof.
  assert (H1 : data_end frame_cut < ETH_HLEN + IPHDR_LEN)
    by (vm_compute; reflexivity).
  assert (H2 : data_end frame_cut < ETH_HLEN \/
               eth_h_proto (host env_le) frame_cut
               = bpf_htons (host env_le) ETH_P_IP)
    by (right; vm_compute; reflexivity).
  repeat (split; [assumption|]).
  exact (short_frame_dropped_uncounted env_le empty_maps frame_cut H1 H2).
Defined.

End FilterInvariants.

(** ** What the egress program changes *)

Module EgressIntegrity.
Import Xdp U64Facts EgressProps.

Lemma dscp_for_dest_values host dest v :
  dscp_for_dest host dest = Some v ->
  v = DSCP_EF \/ v = DSCP_AF41 \/ v = DSCP_AF31.
Proof.
  unfold dscp_for_dest. repeat case_match; intros; simplify_eq; auto.
Qed.

Lemma tc_vpn_egress_cases host now skb :
  tc_vpn_egress host now skb =
    (TC_ACT_OK,
     if egress_udp_frame host (skb_data skb)
     then match dscp_for_dest host
                  (udp_dest host (skb_data skb)
                     (ETH_HLEN + ip_ihl (skb_data skb) ETH_HLEN * 4)) with
          | Some v => SkBuff (set_ip_tos (skb_data skb) ETH_HLEN v)
                             (skb_len skb) (skb_tstamp skb)
          | None => skb
          end
     else skb).
Proof.
  unfold tc_vpn_egress, egress_udp_frame. cbv zeta.
  rewrite pacing_delay_zero. change (0 <? 0) with false. cbv iota.
  destruct skb as [data len ts]. cbn [skb_data skb_len skb_tstamp].
  destruct (ETH_HLEN >? data_end data); cbn [negb andb]; [reflexivity|].
  destruct (eth_h_proto host data =? bpf_htons host ETH_P_IP);
    cbn [negb andb]; [|reflexivity].
  destruct (ETH_HLEN + IPHDR_LEN >? data_end data);
    cbn [negb andb]; [reflexivity|].
  destruct (ip_protocol data ETH_HLEN =? IPPROTO_UDP);
    cbn [negb andb]; [|reflexivity].
  destruct (_ <=? data_end data); [|reflexivity].
  now destruct (dscp_for_dest host _).
Qed.

(** X13: The egress program always answers [TC_ACT_OK] and changes at most one
    byte of the buffer, the TOS byte at offset 15, of a frame that carries
    UDP, to EF, AF41 or AF31; the length of the buffer, [skb->len] and the
    timestamp stay as they were. *)
Theorem tc_egress_changes_tos_only
    (host : endianness) (now : Z) (skb : sk_buff) :
  let r := tc_vpn_egress host now skb in
  r.1 = TC_ACT_OK /\
  (r.2 = skb \/
   exists v, (v = DSCP_EF \/ v = DSCP_AF41 \/ v = DSCP_AF31) /\
             egress_udp_frame host (skb_data skb) = true /\
             r.2 = SkBuff (<[15%nat := byte_of_Z v]> (skb_data skb))
                          (skb_len skb) (skb_tstamp skb)) /\
  length (skb_data r.2) = length (skb_data skb) /\
  (forall i : nat, i <> 15%nat -> skb_data r.2 !! i = skb_data skb !! i).
Proof.
  cbv zeta. rewrite tc_vpn_egress_cases. cbn [fst snd].
  split; [reflexivity|].
  destruct (egress_udp_frame host (skb_data skb)) eqn:Hframe;
    [|split; [now left|split; [reflexivity|reflexivity]]].
  destruct (dscp_for_dest host _) as [v|] eqn:Hmark;
    [|split; [now left|split; [reflexivity|reflexivity]]].
  cbn [skb_data]. unfold set_ip_tos.
  change (Z.to_nat (ETH_HLEN + 1)) with 15%nat.
  split; [|split].
  - right. exists v. split; [exact (dscp_for_dest_values _ _ _ Hmark)|].
    split; reflexivity.
  - apply length_insert.
  - intros i Hi. now apply list_lookup_insert_ne.
Qed.

(** X14: On a little-endian host every UDP frame whose destination port has a
    low byte from 121 to 219, the ports 5060 and 5061 apart, leaves with
    the AF41 marking, whatever the high byte of the port. *)
Theorem little_endian_marks_by_low_byte (now : Z) (skb : sk_buff) :
  let pkt := skb_data skb in
  let udp := ETH_HLEN + ip_ihl pkt ETH_HLEN * 4 in
  egress_udp_frame LittleEndian pkt = true ->
  121 <= byte_at pkt (udp + 3) <= 219 ->
  net16 pkt (udp + 2) <> 5060 ->
  net16 pkt (udp + 2) <> 5061 ->
  ip_tos (skb_data (tc_vpn_egress LittleEndian now skb).2) ETH_HLEN = DSCP_AF41.
Proof.
  cbv zeta. intros Hframe Hlow H5060 H5061.
  rewrite tc_vpn_egress_cases, Hframe. cbn [snd].
  set (udp := ETH_HLEN + ip_ihl (skb_data skb) ETH_HLEN * 4) in *.
  pose proof (byte_at_range (skb_data skb) (udp + 2)) as Hhi.
  assert (Hmark : dscp_for_dest LittleEndian
                    (udp_dest LittleEndian (skb_data skb) udp)
                  = Some DSCP_AF41).
  { unfold net16 in H5060, H5061.
    replace (udp + 2 + 1) with (udp + 3) in H5060, H5061 by lia.
    unfold dscp_for_dest, udp_dest, load16, bpf_htons, WIREGUARD_PORT.
    replace (udp + 2 + 1) with (udp + 3) by lia.
    change (bswap16 5060) with 50195. change (bswap16 5061) with 50451.
    change (bswap16 27000) with 30825. change (bswap16 27100) with 56425.
    set (hi := byte_at (skb_data skb) (udp + 2)) in *.
    set (lo := byte_at (skb_data skb) (udp + 3)) in *.
    destruct (Z.eqb_spec (hi + 256 * lo) 50195); [lia|].
    destruct (Z.eqb_spec (hi + 256 * lo) 50451); [lia|].
    cbn [orb].
    destruct (Z.leb_spec 30825 (hi + 256 * lo)); [|lia].
    destruct (Z.leb_spec (hi + 256 * lo) 56425); [|lia].
    reflexivity. }
  rewrite Hmark. cbn [skb_data]. apply ip_tos_set.
  - unfold ETH_HLEN. lia.
  - unfold egress_udp_frame in Hframe.
    rewrite !andb_true_iff, !negb_true_iff in Hframe.
    destruct Hframe as [[[[_ _] H3] _] _].
    rewrite Z.gtb_ltb in H3. apply Z.ltb_ge in H3.
    unfold ETH_HLEN, IPHDR_LEN in *. lia.
  - unfold DSCP_AF41. lia.
Qed.

Lemma little_endian_marks_by_low_byte_witness :
  let skb := SkBuff (frame_udp 633) 42 0 in
  let pkt := skb_data skb in
  let udp := ETH_HLEN + ip_ihl pkt ETH_HLEN * 4 in
  egress_udp_frame LittleEndian pkt = true /\
  121 <= byte_at pkt (udp + 3) <= 219 /\
  net16 pkt (udp + 2) <> 5060 /\
  net16 pkt (udp + 2) <> 5061 /\
  ip_tos (skb_data (tc_vpn_egress LittleEndian 0 skb).2) ETH_HLEN = DSCP_AF41.
Proof.
  cbv zeta.
  set (skb := SkBuff (frame_udp 633) 42 0).
  assert (H1 : egress_udp_frame LittleEndian (skb_data skb) = true)
    by (vm_compute; reflexivity).
  assert (H2 : 121 <= byte_at (skb_data skb)
                 (ETH_HLEN + ip_ihl (skb_data skb) ETH_HLEN * 4 + 3) <= 219)
    by (vm_compute; split; discriminate).
  assert (H3 : net16 (skb_data skb)
                 (ETH_HLEN + ip_ihl (skb_data skb) ETH_HLEN * 4 + 2) <> 5060)
    by (vm_compute; discriminate).
  assert (H4 : net16 (skb_data skb)
                 (ETH_HLEN + ip_ihl (skb_data skb) ETH_HLEN * 4 + 2) <> 5061)
    by (vm_compute; discriminate).
  repeat (split; [assumption|]).
  exact (little_endian_marks_by_low_byte 0 skb H1 H2 H3 H4).
Defined.

(** A frame to a port of one of the three designed classes leaves with the
    marking of its class on a host of either byte order. *)
Lemma tc_marks_designed_classes_witness :
  let skb := SkBuff (frame_udp 27050) 42 0 in
  let pkt := skb_data skb in
  let udp := ETH_HLEN + ip_ihl pkt ETH_HLEN * 4 in
  egress_udp_frame LittleEndian pkt = true /\
  dscp_by_port (256 * byte_at pkt (udp + 2) + byte_at pkt (udp + 3))
    = Some DSCP_AF41 /\
  ip_tos (skb_data (tc_vpn_egress LittleEndian 0 skb).2) ETH_HLEN = DSCP_AF41.
Proof.
  cbv zeta.
  set (skb := SkBuff (frame_udp 27050) 42 0).
  assert (H1 : egress_udp_frame LittleEndian (skb_data skb) = true)
    by (vm_compute; reflexivity).
  assert (H2 : dscp_by_port
                 (256 * byte_at (skb_data skb)
                          (ETH_HLEN + ip_ihl (skb_data skb) ETH_HLEN * 4 + 2)
                  + byte_at (skb_data skb)
                      (ETH_HLEN + ip_ihl (skb_data skb) ETH_HLEN * 4 + 3))
               = Some DSCP_AF41) by (vm_compute; reflexivity).
  repeat (split; [assumption|]).
  exact (tc_marks_designed_classes LittleEndian 0 skb DSCP_AF41 H1 H2).
Defined.

End EgressIntegrity.

(** ** Receive and transmit paths of the manager *)

Module DataPathProps.
Import Manager U64Facts.

(** *** NAPI poll *)

Section PollProps.

Variable sk_buff : Type.
Variable decrypt : sk_buff -> option sk_buff.

Lemma omap_step {A B} (f : A -> option B) (x : A) (l : list A) :
  omap f (x :: l) =
    match f x with Some y => y :: omap f l | None => omap f l end.
Proof. reflexivity. Qed.

Lemma wrap_add_succ errors (n : nat) :
  U64.wrap (U64.add errors 1 + Z.of_nat n) = U64.wrap (errors + Z.of_nat (S n)).
Proof.
  unfold U64.add, U64.wrap.
  rewrite Z.add_mod_idemp_l by (rewrite modulus_eq; lia).
  f_equal. lia.
Qed.

Lemma poll_loop_spec budget queue : forall work_done gro freed errors,
  U64.in_range errors ->
  exists processed rest,
    queue = processed ++ rest /\
    poll_loop sk_buff decrypt budget queue work_done gro freed errors =
      (work_done + Z.of_nat (length (omap decrypt processed)),
       rest,
       gro ++ omap decrypt processed,
       freed ++ filter (fun skb => decrypt skb = None) processed,
       U64.wrap (errors + Z.of_nat
                   (length (filter (fun skb => decrypt skb = None) processed)))) /\
    (work_done <= budget ->
     work_done + Z.of_nat (length (omap decrypt processed)) <= budget) /\
    (work_done + Z.of_nat (length (omap decrypt processed)) < budget ->
     rest = []).
Proof.
  induction queue as [|skb queue IH]; intros work_done gro freed errors Herr.
  - exists [], []. cbn [poll_loop length app].
    change (omap decrypt []) with (@nil sk_buff). cbn [length].
    rewrite filter_nil, !app_nil_r, !Z.add_0_r, (wrap_small _ Herr).
    split; [reflexivity|]. split; [now destruct (work_done <? budget)|].
    split; [lia|reflexivity].
  - cbn [poll_loop]. destruct (Z.ltb_spec work_done budget) as [Hlt|Hge].
    + destruct (decrypt skb) as [plain|] eqn:Hd.
      * destruct (IH (work_done + 1) (gro ++ [plain]) freed errors Herr)
          as (processed & rest & -> & -> & Hle & Hdrain).
        exists (skb :: processed), rest.
        rewrite omap_step, Hd. cbn [length]. rewrite filter_cons.
        destruct (decide (decrypt skb = None)) as [E|_]; [congruence|].
        rewrite <- !app_assoc. cbn [app].
        replace (work_done + Z.of_nat (S (length (omap decrypt processed))))
          with (work_done + 1 + Z.of_nat (length (omap decrypt processed)))
          by lia.
        split; [reflexivity|]. split; [reflexivity|].
        split; [intros _; apply Hle; lia | exact Hdrain].
      * assert (Herr' : U64.in_range (U64.add errors 1)) by apply wrap_range.
        destruct (IH work_done gro (freed ++ [skb]) (U64.add errors 1) Herr')
          as (processed & rest & -> & -> & Hle & Hdrain).
        exists (skb :: processed), rest.
        rewrite omap_step, Hd. rewrite filter_cons.
        destruct (decide (decrypt skb = None)) as [_|E]; [|congruence].
        rewrite <- !app_assoc. cbn [app length].
        split; [reflexivity|]. split; [|split; assumption].
        now rewrite wrap_add_succ.
    + exists [], (skb :: queue). cbn [length app].
      change (omap decrypt []) with (@nil sk_buff). cbn [length].
      rewrite filter_nil, !app_nil_r, !Z.add_0_r, (wrap_small _ Herr).
      split; [reflexivity|]. split; [reflexivity|]. split; lia.
Qed.

(** X16: One poll takes buffers from the head of the queue, in order: those that
    decrypt go to GRO and are the work done, the others are freed and
    counted in [rx_errors] without counting as work; the rest stays
    queued. *)
Theorem poll_accounts_for_every_buffer (budget : Z) (st : poll_state sk_buff) :
  U64.in_range (rx_errors sk_buff st) ->
  let r := undertheradar_poll sk_buff decrypt budget st in
  exists processed : list sk_buff,
    rx_queue sk_buff st = processed ++ rx_queue sk_buff r.2 /\
    gro_received sk_buff r.2
      = gro_received sk_buff st ++ omap decrypt processed /\
    rx_freed sk_buff r.2
      = rx_freed sk_buff st ++ filter (fun skb => decrypt skb = None) processed /\
    rx_errors sk_buff r.2
      = U64.wrap (rx_errors sk_buff st + Z.of_nat
                    (length (filter (fun skb => decrypt skb = None) processed))) /\
    r.1 = Z.of_nat (length (omap decrypt processed)).
Proof.
  intros Herr. cbv zeta. unfold undertheradar_poll.
  destruct (poll_loop_spec budget (rx_queue sk_buff st) 0
              (gro_received sk_buff st) (rx_freed sk_buff st)
              (rx_errors sk_buff st) Herr)
    as (processed & rest & Hq & -> & _ & _).
  exists processed. cbn [fst snd rx_queue gro_received rx_freed rx_errors].
  rewrite Z.add_0_l. auto.
Qed.

(** X17: With a budget that is not negative the work done stays within the
    budget; the poll is completed exactly when the work done is below the
    budget, and then the queue is empty. *)
Theorem poll_budget_and_completion (budget : Z) (st : poll_state sk_buff) :
  0 <= budget ->
  U64.in_range (rx_errors sk_buff st) ->
  let r := undertheradar_poll sk_buff decrypt budget st in
  0 <= r.1 <= budget /\
  napi_completed sk_buff r.2
    = (if r.1 <? budget then Some r.1 else napi_completed sk_buff st) /\
  (r.1 < budget -> rx_queue sk_buff r.2 = []).
Proof.
  intros Hb Herr. cbv zeta. unfold undertheradar_poll.
  destruct (poll_loop_spec budget (rx_queue sk_buff st) 0
              (gro_received sk_buff st) (rx_freed sk_buff st)
              (rx_errors sk_buff st) Herr)
    as (processed & rest & Hq & -> & Hle & Hdrain).
  cbn [fst snd rx_queue napi_completed].
  split; [specialize (Hle Hb); lia|]. split; [reflexivity|exact Hdrain].
Qed.

End PollProps.

Lemma poll_accounts_for_every_buffer_witness :
  let st := PollState Z [2; 3; 4; 6] [] [] 0 None in
  let r := undertheradar_poll Z decrypt_even 2 st in
  U64.in_range (rx_errors Z st) /\
  r = (2, PollState Z [6] [3; 5] [3] 1 None) /\
  exists processed : list Z,
    rx_queue Z st = processed ++ rx_queue Z r.2 /\
    gro_received Z r.2 = gro_received Z st ++ omap decrypt_even processed /\
    rx_freed Z r.2
      = rx_freed Z st ++ filter (fun skb => decrypt_even skb = None) processed /\
    rx_errors Z r.2
      = U64.wrap (rx_errors Z st + Z.of_nat
          (length (filter (fun skb => decrypt_even skb = None) processed))) /\
    r.1 = Z.of_nat (length (omap decrypt_even processed)).
Proof.
  cbv zeta.
  assert (H : U64.in_range (rx_errors Z (PollState Z [2; 3; 4; 6] [] [] 0 None)))
    by (vm_compute; split; [discriminate|reflexivity]).
  split; [exact H|]. split; [reflexivity|].
  exact (poll_accounts_for_every_buffer Z decrypt_even 2 _ H).
Defined.

Lemma poll_budget_and_completion_witness :
  let st := PollState Z [2; 3] [] [] 0 None in
  let r := undertheradar_poll Z decrypt_even 2 st in
  0 <= 2 /\ U64.in_range (rx_errors Z st) /\
  0 <= r.1 <= 2 /\
  napi_completed Z r.2 = (if r.1 <? 2 then Some r.1 else napi_completed Z st) /\
  (r.1 < 2 -> rx_queue Z r.2 = []).
Proof.
  cbv zeta.
  assert (H0 : 0 <= 2) by lia.
  assert (H : U64.in_range (rx_errors Z (PollState Z [2; 3] [] [] 0 None)))
    by (vm_compute; split; [discriminate|reflexivity]).
  split; [exact H0|]. split; [exact H|].
  exact (poll_budget_and_completion Z decrypt_even 2 _ H0 H).
Defined.

(** *** Transmit path *)

Section XmitProps.

Variable sk_buff : Type.
Variable skb_is_gso : sk_buff -> bool.
Variable skb_gso_segment : sk_buff -> Z + (sk_buff * list sk_buff).
Variable matches : undertheradar_peer -> sk_buff -> bool.
Variable split_tunnel_enabled : undertheradar_peer -> bool.
Variable should_bypass_tunnel : sk_buff -> undertheradar_peer -> bool.
Variable undertheradar_bypass_tunnel : sk_buff -> Z.
Variable encrypt : sk_buff -> undertheradar_peer -> option sk_buff.

Lemma encrypt_and_queue_spec peer chain : forall queued freed errors,
  encrypt_and_queue sk_buff encrypt peer chain queued freed errors =
    (queued ++ omap (fun skb => encrypt skb peer) chain,
     freed ++ filter (fun skb => encrypt skb peer = None) chain,
     errors + Z.of_nat
       (length (filter (fun skb => encrypt skb peer = None) chain))).
Proof.
  induction chain as [|skb chain IH]; intros queued freed errors.
  - cbn [encrypt_and_queue]. change (omap _ []) with (@nil sk_buff).
    rewrite filter_nil, !app_nil_r. cbn [length]. now rewrite Z.add_0_r.
  - cbn [encrypt_and_queue]. rewrite omap_step, filter_cons.
    destruct (encrypt skb peer) as [sealed|] eqn:E.
    + destruct (decide (Some sealed = None)) as [?|_]; [discriminate|].
      rewrite IH, <- app_assoc. reflexivity.
    + destruct (decide (None = None)) as [_|?]; [|contradiction].
      rewrite IH, <- app_assoc. cbn [app length]. f_equal. lia.
Qed.

Lemma queued_or_failed peer (l : list sk_buff) :
  (length (omap (fun b => encrypt b peer) l)
   + length (filter (fun b => encrypt b peer = None) l)
   = length l)%nat.
Proof.
  induction l as [|b l IHl]; [reflexivity|].
  rewrite omap_step, filter_cons. cbn [length].
  destruct (encrypt b peer) as [sealed|].
  - destruct (decide (Some sealed = None)) as [?|_]; [discriminate|].
    cbn [length]. now rewrite <- IHl.
  - destruct (decide (None = None)) as [_|?]; [|contradiction].
    cbn [length]. rewrite <- IHl. lia.
Qed.

(** X18: When a peer is found for the first buffer and the tunnel is not
    bypassed, every buffer of the chain (the segments, if the buffer was
    segmented) is either queued for that peer, in order, or freed and
    counted once in the peer's [tx_errors]; the device counts no error and
    the answer is [NETDEV_TX_OK] even if no buffer could be encrypted. *)
Theorem xmit_accounts_for_every_buffer
    (peer_list : list undertheradar_peer) (skb : sk_buff) (next : list sk_buff)
    (head : sk_buff) (rest consumed : list sk_buff) (peer : undertheradar_peer) :
  (skb_is_gso skb = false /\ head = skb /\ rest = next /\ consumed = []) \/
  (skb_is_gso skb = true /\ skb_gso_segment skb = inr (head, rest) /\
   consumed = [skb]) ->
  undertheradar_routing_lookup sk_buff matches peer_list head = Some peer ->
  split_tunnel_enabled peer && should_bypass_tunnel head peer = false ->
  let r := undertheradar_xmit sk_buff skb_is_gso skb_gso_segment matches
             split_tunnel_enabled should_bypass_tunnel
             undertheradar_bypass_tunnel encrypt peer_list skb next in
  let failed := filter (fun b => encrypt b peer = None) (head :: rest) in
  r.1 = NETDEV_TX_OK /\
  tx_queued sk_buff r.2 = omap (fun b => encrypt b peer) (head :: rest) /\
  tx_freed sk_buff r.2 = consumed ++ failed /\
  peer_tx_errors sk_buff r.2 = Z.of_nat (length failed) /\
  dev_tx_errors sk_buff r.2 = 0 /\
  sent_now sk_buff r.2 = Some peer /\
  (length (tx_queued sk_buff r.2) + length failed = S (length rest))%nat.
Proof.
  intros Hseg Hpeer Hsplit. cbv zeta. unfold undertheradar_xmit.
  pose proof (queued_or_failed peer) as Hlen.
  destruct Hseg as [(Hgso & -> & -> & ->)|(Hgso & Hsegs & ->)];
    rewrite Hgso, ?Hsegs, Hpeer, Hsplit, encrypt_and_queue_spec;
    cbn [fst snd tx_queued tx_freed peer_tx_errors dev_tx_errors sent_now app];
    rewrite Z.add_0_l;
    (repeat (split; [reflexivity|])); apply (Hlen (_ :: _)).
Qed.

(** When segmentation fails or no peer is found, nothing is queued or
    sent, the buffers at hand are freed and the device counts one error;
    the answer is the error of the segmentation, or [-ENOKEY]. *)
Lemma xmit_error_paths
    (peer_list : list undertheradar_peer) (skb : sk_buff) (next : list sk_buff) :
  let r := undertheradar_xmit sk_buff skb_is_gso skb_gso_segment matches
             split_tunnel_enabled should_bypass_tunnel
             undertheradar_bypass_tunnel encrypt peer_list skb next in
  (forall err, skb_is_gso skb = true -> skb_gso_segment skb = inl err ->
     r = (err, XmitEffects sk_buff [] (skb :: next) 0 1 None None)) /\
  (skb_is_gso skb = false ->
   undertheradar_routing_lookup sk_buff matches peer_list skb = None ->
     r = (- ENOKEY, XmitEffects sk_buff [] (skb :: next) 0 1 None None)) /\
  (forall head rest, skb_is_gso skb = true ->
     skb_gso_segment skb = inr (head, rest) ->
     undertheradar_routing_lookup sk_buff matches peer_list head = None ->
     r = (- ENOKEY,
          XmitEffects sk_buff [] (skb :: head :: rest) 0 1 None None)).
Proof.
  cbv zeta. unfold undertheradar_xmit, xmit_err. split; [|split].
  - intros err Hgso Herr. now rewrite Hgso, Herr.
  - intros Hgso Hnone. now rewrite Hgso, Hnone.
  - intros head rest Hgso Hsegs Hnone. now rewrite Hgso, Hsegs, Hnone.
Qed.

End XmitProps.

Lemma xmit_accounts_for_every_buffer_witness :
  let r := undertheradar_xmit Z never_gso no_segments match_any no_split
             no_bypass bypass_ok encrypt_even [peer_one] 2 [3; 4] in
  ((never_gso 2 = false /\ 2 = 2 /\ [3; 4] = [3; 4] /\ @nil Z = []) \/
   (never_gso 2 = true /\ no_segments 2 = inr (2, [3; 4]) /\ @nil Z = [2])) /\
  undertheradar_routing_lookup Z match_any [peer_one] 2 = Some peer_one /\
  no_split peer_one && no_bypass 2 peer_one = false /\
  r = (NETDEV_TX_OK, XmitEffects Z [3; 5] [3] 1 0 (Some peer_one) None) /\
  (length (tx_queued Z r.2)
   + length (filter (fun b => encrypt_even b peer_one = None)
               (2 :: [3; 4])%Z)
   = 3)%nat.
Proof.
  cbv zeta.
  assert (H1 : (never_gso 2 = false /\ 2 = 2 /\ [3; 4] = [3; 4] /\ @nil Z = [])
               \/ (never_gso 2 = true /\ no_segments 2 = inr (2, [3; 4])
                   /\ @nil Z = [2])) by (left; repeat split).
  assert (H2 : undertheradar_routing_lookup Z match_any [peer_one] 2
               = Some peer_one) by reflexivity.
  assert (H3 : no_split peer_one && no_bypass 2 peer_one = false)
    by reflexivity.
  split; [exact H1|]. split; [exact H2|]. split; [exact H3|].
  split; [reflexivity|].
  exact (proj2 (proj2 (proj2 (proj2 (proj2 (proj2
           (xmit_accounts_for_every_buffer Z never_gso no_segments match_any
              no_split no_bypass bypass_ok encrypt_even [peer_one] 2 [3; 4]
              2 [3; 4] [] peer_one H1 H2 H3))))))).
Defined.

End DataPathProps.

(** ** Control path of the manager *)

Module ControlPathProps.
Import Manager U64Facts ManagerProps.

(** *** Kill switch *)

(** X19: When both rules are accepted, enabling appends the allow rule and then
    the deny rule after the rules already installed, sets the flag and
    reports the status of the second rule; enabling again changes nothing
    and reports 0. *)
Theorem enable_kill_switch_installs_in_order
    (create : String.string -> option iptables_rule)
    (status : firewall -> option iptables_rule -> Z)
    (wg : undertheradar_device) (fw : firewall) (r1 r2 : iptables_rule) :
  kill_switch_enabled wg = false ->
  create (accept_rule wg) = Some r1 ->
  create drop_rule = Some r2 ->
  0 <= status fw (Some r1) ->
  0 <= status (fw ++ [r1]) (Some r2) ->
  let wg' := Device (dev_name wg) true in
  undertheradar_enable_kill_switch create status wg fw =
    (status (fw ++ [r1]) (Some r2), wg', fw ++ [r1; r2]) /\
  undertheradar_enable_kill_switch create status wg' (fw ++ [r1; r2]) =
    (0, wg', fw ++ [r1; r2]).
Proof.
  intros Hoff Hc1 Hc2 Hs1 Hs2. cbv zeta. split; [|reflexivity].
  unfold undertheradar_enable_kill_switch, iptables_add_rule.
  rewrite Hoff, Hc1, Hc2. apply Z.ltb_ge in Hs1, Hs2.
  cbv zeta. rewrite Hs1. cbv iota beta. rewrite Hs1, Hs2.
  now rewrite <- app_assoc.
Qed.

Lemma enable_kill_switch_installs_in_order_witness :
  let r1 := "-A OUTPUT -o wg0 -j ACCEPT"%string in
  let r2 := "-A OUTPUT -j DROP"%string in
  let fw := ["-A INPUT -j ACCEPT"%string] in
  kill_switch_enabled wg0 = false /\
  create_always (accept_rule wg0) = Some r1 /\
  create_always drop_rule = Some r2 /\
  0 <= add_always_ok fw (Some r1) /\
  0 <= add_always_ok (fw ++ [r1]) (Some r2) /\
  undertheradar_enable_kill_switch create_always add_always_ok wg0 fw =
    (0, Device "wg0" true, fw ++ [r1; r2]) /\
  undertheradar_enable_kill_switch create_always add_always_ok
    (Device "wg0" true) (fw ++ [r1; r2]) =
    (0, Device "wg0" true, fw ++ [r1; r2]).
Proof.
  cbv zeta.
  assert (H1 : kill_switch_enabled wg0 = false) by reflexivity.
  assert (H2 : create_always (accept_rule wg0)
               = Some "-A OUTPUT -o wg0 -j ACCEPT"%string) by reflexivity.
  assert (H3 : create_always drop_rule = Some "-A OUTPUT -j DROP"%string)
    by reflexivity.
  assert (H4 : 0 <= add_always_ok ["-A INPUT -j ACCEPT"%string]
                      (Some "-A OUTPUT -o wg0 -j ACCEPT"%string))
    by (unfold add_always_ok; lia).
  assert (H5 : 0 <= add_always_ok
                      (["-A INPUT -j ACCEPT"%string]
                         ++ ["-A OUTPUT -o wg0 -j ACCEPT"%string])
                      (Some "-A OUTPUT -j DROP"%string))
    by (unfold add_always_ok; lia).
  repeat (split; [assumption|]).
  exact (enable_kill_switch_installs_in_order create_always add_always_ok
           wg0 _ _ _ H1 H2 H3 H4 H5).
Defined.

(** When the first rule cannot be created or installed, enabling reports a
    negative status and leaves the device and the installed rules as they
    were. *)
Lemma enable_first_rule_failure_witness :
  kill_switch_enabled wg0 = false /\
  match create_never (accept_rule wg0) with
  | None => True
  | Some r => add_always_ok [] (Some r) < 0
  end /\
  exists ret,
    ret < 0 /\
    undertheradar_enable_kill_switch create_never add_always_ok wg0 []
    = (ret, wg0, []).
Proof.
  assert (H1 : kill_switch_enabled wg0 = false) by reflexivity.
  assert (H2 : match create_never (accept_rule wg0) with
               | None => True
               | Some r => add_always_ok [] (Some r) < 0
               end) by exact I.
  split; [exact H1|]. split; [exact H2|].
  exact (enable_first_rule_failure create_never add_always_ok wg0 [] H1 H2).
Defined.

(** *** Handshake retry timer *)

Lemma retry_expiries_interval_witness :
  let peer := Peer 1 0 0 0 5 in
  0 <= handshake_retry_interval peer <= 80 /\
  80 < 2 ^ 63 /\
  handshake_retry_interval (retry_expiries 80 [0; 0; 0; 0; 0] peer).1
  = Z.min (5 * 2 ^ 5) 80.
Proof.
  cbv zeta.
  assert (H1 : 0 <= handshake_retry_interval (Peer 1 0 0 0 5) <= 80)
    by (cbn; lia).
  assert (H2 : 80 < 2 ^ 63) by reflexivity.
  split; [exact H1|]. split; [exact H2|].
  exact (retry_expiries_interval 80 [0; 0; 0; 0; 0] (Peer 1 0 0 0 5) H1 H2).
Defined.

Lemma count_effects_app p l1 l2 :
  count_effects p (l1 ++ l2) = (count_effects p l1 + count_effects p l2)%nat.
Proof.
  induction l1 as [|e l1 IH]; [reflexivity|].
  cbn [app count_effects]. rewrite IH. lia.
Qed.

(** X22: Every expiry of the retry timer sends one initiation; whether it turns
    to the alternative endpoint first is decided once and for all by the
    failure counter at the start: at every expiry if the counter is above 3,
    at none otherwise. *)
Theorem retry_expiries_effects
    (cap : Z) (js : list Z) (peer : undertheradar_peer) :
  count_effects is_initiation (retry_expiries cap js peer).2 = length js /\
  count_effects is_failover (retry_expiries cap js peer).2
  = if 3 <? handshake_failures peer then length js else 0%nat.
Proof.
  revert peer. induction js as [|j js IH]; intros peer.
  - cbn. now destruct (3 <? handshake_failures peer).
  - rewrite retry_expiries_cons. cbn [snd length].
    rewrite !count_effects_app.
    destruct (IH (undertheradar_peer_check_handshake cap j peer).1)
      as [-> ->].
    unfold undertheradar_peer_check_handshake.
    cbn [fst snd handshake_failures].
    destruct (3 <? handshake_failures peer); cbn; split; lia.
Qed.

(** *** Routing lookup *)

Section RoutingNone.

Variable sk_buff : Type.
Variable matches : undertheradar_peer -> sk_buff -> bool.
Variable skb : sk_buff.

Lemma peer_load_le_max peer : peer_load peer <= U64.max.
Proof.
  unfold peer_load, U64.add, U64.max.
  pose proof (wrap_range (tx_bytes peer
                          + U64.mul (last_handshake_rtt peer) 1000)). lia.
Qed.

Lemma routing_best_below_max (l : list undertheradar_peer) :
  match (fold_left (routing_step sk_buff matches skb) l (None, U64.max)).1 with
  | Some p =>
      peer_load p < U64.max /\
      (fold_left (routing_step sk_buff matches skb) l (None, U64.max)).2
      = peer_load p
  | None =>
      (fold_left (routing_step sk_buff matches skb) l (None, U64.max)).2
      = U64.max
  end.
Proof.
  induction l as [|x l IH] using rev_ind; [reflexivity|].
  rewrite fold_left_app. cbn [fold_left].
  destruct (fold_left (routing_step sk_buff matches skb) l (None, U64.max))
    as [best low]. cbn [fst snd] in IH.
  unfold routing_step. cbn [fst snd].
  destruct (matches x skb); cbn [negb].
  - destruct (Z.ltb_spec (peer_load x) low) as [Hlt|Hge]; cbn [fst snd].
    + split; [|reflexivity]. destruct best as [p|].
      * destruct IH as [Hp ->]. lia.
      * subst low. exact Hlt.
    + exact IH.
  - exact IH.
Qed.

(** X23: The lookup finds no peer exactly when every peer that matches the
    packet has the load score [U64_MAX]: when no peer matches, but also
    when peers match and all of them score [U64_MAX]. *)
Theorem routing_lookup_none_iff (peer_list : list undertheradar_peer) :
  undertheradar_routing_lookup sk_buff matches peer_list skb = None <->
  (forall (j : nat) q, peer_list !! j = Some q -> matches q skb = true ->
                       peer_load q = U64.max).
Proof.
  pose proof (routing_loop_invariant sk_buff matches skb peer_list) as Hinv.
  pose proof (routing_best_below_max peer_list) as Hbest.
  unfold undertheradar_routing_lookup.
  destruct (fold_left (routing_step sk_buff matches skb) peer_list
              (None, U64.max)).1 as [p|].
  - split; [discriminate|]. intros Hall. exfalso.
    destruct Hinv as [_ (i & Hi & Hp & _)]. destruct Hbest as [Hlt _].
    specialize (Hall _ _ Hi Hp). lia.
  - split; [|reflexivity]. intros _ j q Hj Hq.
    destruct Hinv as [_ Hall]. specialize (Hall _ _ Hj Hq).
    pose proof (peer_load_le_max q). lia.
Qed.

End RoutingNone.

(** *** DNS leak protection *)

(** X24: Setting up the secure DNS is all or nothing: either it reports 0 and
    the device has the protection on, with the two internal resolvers and
    DNS over HTTPS, or it reports a negative status and the device is as it
    was. *)
Theorem setup_secure_dns_all_or_nothing
    (kzalloc_ok : bool) (block : list String.string -> Z -> Z)
    (wg : dns_device) :
  let r := undertheradar_setup_secure_dns kzalloc_ok block wg in
  (r.1 = 0 /\
   kzalloc_ok = true /\ 0 <= block internal_dns 2 /\
   dns_leak_protection r.2 = true /\
   exists cfg, secure_dns r.2 = Some cfg /\
               servers cfg = ["10.0.0.1"%string; "10.0.0.2"%string] /\
               doh_enabled cfg = true) \/
  (r.1 < 0 /\ r.2 = wg /\
   (kzalloc_ok = false \/ block internal_dns 2 < 0)).
Proof.
  cbv zeta. unfold undertheradar_setup_secure_dns.
  destruct kzalloc_ok; cbn [negb].
  - destruct (Z.ltb_spec (block internal_dns 2) 0) as [Hneg|Hok].
    + right. cbn [fst snd]. auto.
    + left. cbn [fst snd dns_leak_protection secure_dns].
      repeat (split; [reflexivity || exact Hok|]).
      eexists. split; [reflexivity|]. split; reflexivity.
  - right. cbn [fst snd]. unfold ENOMEM. split; [lia|auto].
Qed.

(** *** Multi-hop chain *)

Section HopProps.

Variable sockaddr_storage : Type.

(** X25: Hops are appended in the order of the calls, each with the first 32
    bytes of its key, after the hops already in the chain; a call whose
    allocation fails reports [-ENOMEM] and adds nothing; the routing is
    recalculated once per hop added, and [multi_hop_enabled] is never
    written. *)
Theorem add_hops_appends_in_order
    (hops : list (bool * list Byte.byte * sockaddr_storage)) :
  forall wg : hop_device sockaddr_storage,
  let r := add_hops sockaddr_storage wg hops in
  r.1 = map (fun h : bool * list Byte.byte * sockaddr_storage =>
             if h.1.1 then 0 else - ENOMEM) hops /\
  hop_chain _ r.2
    = hop_chain _ wg
      ++ map (hop_of sockaddr_storage) (filter (fun h : bool * list Byte.byte * sockaddr_storage =>
                   h.1.1 = true) hops) /\
  recalculations _ r.2
    = (recalculations _ wg + length (filter (fun h : bool * list Byte.byte * sockaddr_storage =>
                   h.1.1 = true) hops))%nat /\
  multi_hop_enabled _ r.2 = multi_hop_enabled _ wg.
Proof.
  induction hops as [|[[ok key] endpoint] hops IH]; intros wg; cbv zeta.
  - cbn [add_hops fst snd map]. rewrite filter_nil. cbn [map length].
    rewrite app_nil_r, Nat.add_0_r. auto.
  - cbn [add_hops]. unfold undertheradar_add_hop.
    rewrite filter_cons. cbn [fst snd].
    destruct ok; cbn [negb].
    + specialize (IH (HopDevice sockaddr_storage (multi_hop_enabled _ wg)
                        (hop_chain _ wg ++
                           [HopNode sockaddr_storage
                              (take (Z.to_nat WG_KEY_LEN) key) endpoint])
                        (S (recalculations _ wg)))).
      cbv zeta in IH.
      destruct (add_hops sockaddr_storage _ hops) as [rets wg2].
      cbn [fst snd hop_chain recalculations multi_hop_enabled] in *.
      destruct IH as (-> & -> & -> & ->).
      destruct (decide (true = true)) as [_|?]; [|contradiction].
      cbn [map length]. rewrite <- app_assoc. cbn [app].
      repeat split; try reflexivity. lia.
    + specialize (IH wg). cbv zeta in IH.
      destruct (add_hops sockaddr_storage wg hops) as [rets wg2].
      cbn [fst snd] in *. destruct IH as (-> & -> & -> & ->).
      destruct (decide (false = true)) as [?|_]; [discriminate|].
      cbn [map]. auto.
Qed.

End HopProps.

End ControlPathProps.
